(** * Airbyte connectors: source-aws-cloudtrail and source-facebook-marketing

    A shallow embedding of the stream classes of
    [source_aws_cloudtrail/source.py] and
    [source_facebook_marketing/streams.py], and the properties of their
    pagination, status slicing, cursor tracking, job polling and window
    planning.

    Conventions of the embedding.
    - An instant ([datetime], pendulum [DateTime]) is the number of
      microseconds since the epoch; a duration (pendulum [Interval]) is a
      number of microseconds.  Both are [Z]; all instants are read in one
      time zone, in which a day has 86400 seconds.
    - A cursor string is represented by the instant it denotes:
      [pendulum.parse] and [str] are inverse to each other on it.
    - A Python dictionary with a fixed set of keys is a record; a state
      mapping read with [.get] is a [gmap] with string keys.
    - [None] is [None]; an exception is an explicit outcome.
    - Log statements that go through [self.logger] are left out; the one
      that names the global [logger] is modelled, for the name is not bound.
    - The retry decorator [backoff_policy] comes from [.common] and is left
      out: the methods are described for one attempt. *)

From Stdlib Require Import ZArith List Lia Bool.
From stdpp Require Import base option list strings gmap.

Open Scope Z_scope.

(** ** Time *)

Module Pendulum.

Definition DateTime := Z.
Definition Interval := Z.

Definition MICROS_PER_SECOND : Z := 1000000.
Definition SECONDS_PER_DAY : Z := 86400.

(** [pendulum.Interval(minutes=m)] and [pendulum.Interval(days=d)]. *)
Definition Interval_minutes (m : Z) : Interval := m * 60 * MICROS_PER_SECOND.
Definition Interval_days (d : Z) : Interval := d * SECONDS_PER_DAY * MICROS_PER_SECOND.
Definition Interval_seconds (s : Z) : Interval := s * MICROS_PER_SECOND.

(** [interval.in_seconds()]: whole seconds, truncated towards zero. *)
Definition in_seconds (i : Interval) : Z := Z.quot i MICROS_PER_SECOND.

(** [dt.subtract(days=d)]. *)
Definition subtract_days (t : DateTime) (d : Z) : DateTime := t - Interval_days d.

(** [dt.to_date_string()]: the calendar day, as the number of days since
    the epoch. *)
Definition to_date_string (t : DateTime) : Z := t / Interval_days 1.

(** The instant at which day [n] starts. *)
Definition day (n : Z) : DateTime := Interval_days n.

(** [dt.int_timestamp]: the whole seconds since the epoch. *)
Definition int_timestamp (t : DateTime) : Z := t / MICROS_PER_SECOND.

End Pendulum.

(** ** Python truthiness of the values tested by the code *)

Definition truthy_int (z : Z) : bool := negb (z =? 0).

Definition truthy_str (s : string) : bool :=
  match s with EmptyString => false | _ => true end.

Definition truthy_opt {A} (t : A -> bool) (o : option A) : bool :=
  match o with Some a => t a | None => false end.

(** ** source_aws_cloudtrail/source.py *)

Module Cloudtrail.

(** Class attributes of [AwsCloudtrailStream], [IncrementalAwsCloudtrailStream]
    and [Events]. *)
Definition limit : Z := 25.
Definition cursor_field : string := "StartTime".
Definition time_field : string := "EventTime".
Definition data_field : string := "Events".

(** The instance attribute read by the methods below. *)
Record Stream := { start_date : Z }.

(** An event of a response; [T] is the type of its ["EventTime"] entry:
    an instant in the response, an integer timestamp once parsed. *)
Record Event (T : Type) := { EventId : string; EventTime : T }.
Arguments EventId {T} _.
Arguments EventTime {T} _.

(** A response of [lookup_events]. *)
Record Response := {
  Events : list (Event Pendulum.DateTime);
  NextToken : option string
}.

(** The keyword arguments of [lookup_events]. *)
Record Params := {
  p_MaxResults : Z;
  p_StartTime : option Z;
  p_NextToken : option string
}.

(** [AwsCloudtrailStream.next_page_token]. *)
Definition next_page_token (response : Response) : option string :=
  NextToken response.

(** [AwsCloudtrailStream.request_params]. *)
Definition base_request_params (self : Stream) (next_page_token : option string)
  : Params :=
  {| p_MaxResults := limit;
     p_StartTime :=
       if truthy_int (start_date self) then Some (start_date self) else None;
     p_NextToken :=
       if truthy_opt truthy_str next_page_token then next_page_token else None |}.

(** [IncrementalAwsCloudtrailStream.request_params]: the cursor of the
    state, when truthy, is stored under [cursor_field], which is the
    ["StartTime"] key. *)
Definition request_params (self : Stream) (stream_state : gmap string Z)
    (next_page_token : option string) : Params :=
  let params := base_request_params self next_page_token in
  let cursor_data := stream_state !! cursor_field in
  if truthy_opt truthy_int cursor_data
  then {| p_MaxResults := p_MaxResults params;
          p_StartTime := cursor_data;
          p_NextToken := p_NextToken params |}
  else params.

(** [IncrementalAwsCloudtrailStream.get_updated_state]. *)
Definition get_updated_state (current_stream_state : gmap string Z)
    (latest_record : Event Z) : gmap string Z :=
  let record_time := EventTime latest_record in
  {[ cursor_field :=
       Z.max record_time (default 0 (current_stream_state !! cursor_field)) ]}.

(** What a run of [read_records] leaves behind: the records yielded, the
    requests sent, and the state of the service. *)
Record Run (World : Type) := {
  yielded : list (Event Z);
  requests : list Params;
  world : World
}.
Arguments yielded {World} _.
Arguments requests {World} _.
Arguments world {World} _.

Section ReadRecords.

Context {World : Type}.

(** [datetime_to_timestamp] is [int(datetime.timestamp(date))]: the seconds
    of the instant are computed as a float and then truncated, and the
    float rounds.  The conversion is not fixed here. *)
Variable datetime_to_timestamp : Pendulum.DateTime -> Z.

(** [Events.send_request] is [client.lookup_events]: a call to the
    service, whose state it may change. *)
Variable send_request : World -> Params -> Response * World.

(** [Events.parse_response]. *)
Definition parse_response (response : Response) : list (Event Z) :=
  map (fun event =>
         {| EventId := EventId event;
            EventTime := datetime_to_timestamp (EventTime event) |})
      (Events response).

(** [IncrementalAwsCloudtrailStream.read_records].  The [while] loop is
    unrolled at most [fuel] times; [None] says the fuel was used up
    with [pagination_complete] still false. *)
Fixpoint read_records_loop (fuel : nat) (self : Stream)
    (stream_state : gmap string Z) (next_page_token : option string)
    (w : World) : option (Run World) :=
  match fuel with
  | O => None
  | S fuel' =>
      let params := request_params self stream_state next_page_token in
      let '(response, w') := send_request w params in
      let records := parse_response response in
      let next_page_token := Cloudtrail.next_page_token response in
      if negb (truthy_opt truthy_str next_page_token)
      then Some {| yielded := records; requests := [params]; world := w' |}
      else
        match read_records_loop fuel' self stream_state next_page_token w' with
        | Some r =>
            Some {| yielded := records ++ yielded r;
                    requests := params :: requests r;
                    world := world r |}
        | None => None
        end
  end.

(** [stream_state = stream_state or {}]. *)
Definition read_records (fuel : nat) (self : Stream)
    (stream_state : option (gmap string Z)) (w : World) : option (Run World) :=
  read_records_loop fuel self (default ∅ stream_state) None w.

(** The service answers the request that carries [token] with the
    first page of [pages], and then the rest in order: every page but
    the last carries a (non-empty) next-page token, the last has none. *)
Fixpoint serves (self : Stream) (stream_state : gmap string Z)
    (w : World) (token : option string) (pages : list Response) : Prop :=
  match pages with
  | [] => False
  | page :: rest =>
      let '(response, w') :=
        send_request w (request_params self stream_state token) in
      response = page /\
      match rest with
      | [] => NextToken page = None
      | _ => (exists t, NextToken page = Some t /\ t <> EmptyString) /\
             serves self stream_state w' (NextToken page) rest
      end
  end.

End ReadRecords.

End Cloudtrail.

(** ** Python sequences *)

(** [range(0, stop, step)] for [step >= 1]: the multiples of [step] below
    [stop].  (Python raises [ValueError] for [step = 0]; the list is empty
    here.  The code only calls it with step 3 or 14.) *)
Definition py_range (stop step : nat) : list nat :=
  map (fun k => (k * step)%nat) (seq 0 (Nat.div (stop + step - 1) step)).

(** [l[i : j]] for [0 <= i <= j]: indices past the end are clamped. *)
Definition py_slice {A} (l : list A) (i j : nat) : list A :=
  take (j - i) (drop i l).

(** ** What a call may produce *)

Inductive Exception :=
| TypeError
| KeyError
| NameError
| ParserError
| JobTimeoutException (reason : string) (runtime_seconds : Z).

(** [OutOfFuel] is not a Python outcome: it marks a loop that was still
    running when the unrolling stopped. *)
Inductive Result (A : Type) :=
| Ok (a : A)
| Raise (e : Exception)
| OutOfFuel.
Arguments Ok {A} a.
Arguments Raise {A} e.
Arguments OutOfFuel {A}.

(** ** source_facebook_marketing/streams.py *)

Module Facebook.

(** An entry of a ["filtering"] list. *)
Inductive FilterValue :=
| Labels (values : list string)
| IntTimestamp (t : Z).

Record Filter := {
  field : string;
  operator : string;
  value : FilterValue
}.

(** Request parameters: the keys the code reads or writes, and the
    remaining entries. *)
Record Params := {
  limit : option Z;
  filtering : option (list Filter);
  others : gmap string string
}.

(** [{}]. *)
Definition no_params : Params :=
  {| limit := None; filtering := None; others := ∅ |}.

(** A record returned by a getter; ["updated_time"] is the cursor field. *)
Record Entity := {
  id : string;
  updated_time : Pendulum.DateTime
}.

(** The class attributes of a stream class. *)
Record Class := {
  page_size : Z;
  enable_deleted : bool;
  split_deleted_filter : bool;
  entity_prefix : option string;
  buffer_days : Z;
  cursor_field : string
}.

(** [FBMarketingStream] with the attributes that
    [FBMarketingIncrementalStream] adds. *)
Definition FBMarketingIncrementalStream_class : Class :=
  {| page_size := 100;
     enable_deleted := false;
     split_deleted_filter := false;
     entity_prefix := None;
     buffer_days := -1;
     cursor_field := "updated_time" |}.

Definition subclass (entity_prefix : string) (enable_deleted : bool) : Class :=
  {| page_size := page_size FBMarketingIncrementalStream_class;
     enable_deleted := enable_deleted;
     split_deleted_filter := split_deleted_filter FBMarketingIncrementalStream_class;
     entity_prefix := Some entity_prefix;
     buffer_days := buffer_days FBMarketingIncrementalStream_class;
     cursor_field := cursor_field FBMarketingIncrementalStream_class |}.

Definition AdCreatives_class : Class := subclass "adcreative" false.
Definition Ads_class : Class := subclass "ad" true.
Definition AdSets_class : Class := subclass "adset" true.
Definition Campaigns_class : Class := subclass "campaign" true.
Definition AdsInsights_class : Class := subclass "" false.

(** What an object holds as [_state] when the attribute was never assigned:
    reading it raises [AttributeError]. *)
Inductive Missing := missing.

(** The instance attributes; [S] is the type of what the object holds as
    [_state]. *)
Record Object (S : Type) := {
  class : Class;
  _include_deleted : bool;
  _start_date : option Pendulum.DateTime;
  _state : S
}.
Arguments class {S} _.
Arguments _include_deleted {S} _.
Arguments _start_date {S} _.
Arguments _state {S} _.

(** A stream on which [_state] has been assigned, an instant or [None]: the
    methods that read [self._state] are described on these. *)
Abbreviation Stream := (Object (option Pendulum.DateTime)).

(** [self._state = state]. *)
Definition set_state {S} (self : Object S) (state : option Pendulum.DateTime)
  : Stream :=
  {| class := class self;
     _include_deleted := _include_deleted self;
     _start_date := _start_date self;
     _state := state |}.

(** [f"{self.entity_prefix}"]. *)
Definition format_prefix (prefix : option string) : string :=
  default "None" prefix.

Module FBMarketingStream.

(** [__init__], followed by [FBMarketingIncrementalStream.__init__]
    for [start_date].  Neither assigns [_state]. *)
Definition __init__ (cls : Class) (include_deleted : bool)
    (start_date : option Pendulum.DateTime) : Object Missing :=
  {| class := cls;
     _include_deleted := if enable_deleted cls then include_deleted else false;
     _start_date := start_date;
     _state := missing |}.

Definition filt_values : list string :=
  [ "active"; "archived"; "completed"; "limited"; "not_delivering";
    "deleted"; "not_published"; "pending_review"; "permanently_deleted";
    "recently_completed"; "recently_rejected"; "rejected"; "scheduled";
    "inactive" ].

(** The dictionary yielded for one chunk. *)
Definition status_filter (cls : Class) (chunk : list string) : Params :=
  {| limit := None;
     filtering :=
       Some [ {| field := format_prefix (entity_prefix cls) +:+ ".delivery_info";
                 operator := "IN";
                 value := Labels chunk |} ];
     others := ∅ |}.

(** The loop of [_status_slices] for a given [sub_list_length]. *)
Definition chunks (sub_list_length : nat) : list (list string) :=
  map (fun i => py_slice filt_values i (i + sub_list_length))
      (py_range (length filt_values) sub_list_length).

Definition sub_list_length (cls : Class) : nat :=
  if split_deleted_filter cls then 3%nat else length filt_values.

Definition _status_slices {S} (self : Object S) : list Params :=
  map (status_filter (class self)) (chunks (sub_list_length (class self))).

(** The labels that a yielded dictionary carries. *)
Definition labels_of (status_filter : Params) : list string :=
  match filtering status_filter with
  | Some [ {| value := Labels chunk |} ] => chunk
  | _ => []
  end.

(** [{"limit": self.page_size, **params}]. *)
Definition _build_params {S} (self : Object S) (params : Params) : Params :=
  {| limit := Some (default (page_size (class self)) (limit params));
     filtering := filtering params;
     others := others params |}.

Section Read.

Context {S : Type}.
(** [deep_merge] comes from [.common]. *)
Variable deep_merge : Params -> Params -> Params.
(** [self._build_params], as the class of [self] defines it. *)
Variable self_build_params : Object S -> Params -> Params.

(** The parameters of the calls that [read] makes to its getter. *)
Definition read_requests (self : Object S) (params : option Params)
  : list Params :=
  let params := default no_params params in
  if _include_deleted self
  then map (fun status_filter =>
              self_build_params self (deep_merge params status_filter))
           (_status_slices self)
  else [self_build_params self params].

Definition read {R : Type} (self : Object S) (getter : Params -> list R)
    (params : option Params) : list R :=
  let params := default no_params params in
  if _include_deleted self
  then flat_map (fun status_filter =>
                   getter (self_build_params self
                             (deep_merge params status_filter)))
                (_status_slices self)
  else getter (self_build_params self params).

End Read.

(** [stream_slices].  It is a generator: the [return [None]] of its [else]
    branch ends the iteration and yields nothing. *)
Definition stream_slices {S} (self : Object S) : list (option Params) :=
  if enable_deleted (class self)
  then map Some (_status_slices self)
  else [].

End FBMarketingStream.

(** A value of the persisted state mapping: the cursor as a string (given
    by the instant it denotes), any other string, or a boolean. *)
Inductive Value :=
| Cursor (t : Pendulum.DateTime)
| Text (s : string)
| Bool (b : bool).

Definition truthy_value (v : Value) : bool :=
  match v with
  | Cursor _ => true
  | Text s => truthy_str s
  | Bool b => b
  end.

(** [str(cursor_value)]. *)
Definition str (cursor_value : option Pendulum.DateTime) : Value :=
  match cursor_value with
  | Some t => Cursor t
  | None => Text "None"
  end.

Module FBMarketingIncrementalStream.

Section GetUpdatedState.

Context {S : Type}.

(** [pendulum.parse] applied to [self._start_date], which is an
    instant or [None] and not a string: what pendulum does with it is
    not decided here. *)
Variable parse_start_date :
  option Pendulum.DateTime -> Result Pendulum.DateTime.

(** The statement that follows the [if] is
    [max(pendulum.parse(current_stream_state[self.cursor_field])],
    left unfinished in the source: it assigns nothing.  Whether
    evaluating it completes ([None]) or raises is not decided here. *)
Variable unfinished_max : gmap string Value -> option Exception.

(** [pendulum.parse(current_stream_state.get(self.cursor_field, self._start_date))]. *)
Definition parse_cursor (self : Object S)
    (current_stream_state : gmap string Value)
  : Result Pendulum.DateTime :=
  match current_stream_state !! cursor_field (class self) with
  | Some (Cursor t) => Ok t
  | Some (Text _) => Raise ParserError
  | Some (Bool _) => Raise TypeError
  | None => parse_start_date (_start_date self)
  end.

Definition get_updated_state (self : Object S)
    (current_stream_state : gmap string Value) (latest_record : Entity)
  : Result (gmap string Value) :=
  let cursor_value := _start_date self in
  let potentially_new_records_in_the_past :=
    _include_deleted self &&
    negb (truthy_value
            (default (Bool false) (current_stream_state !! "include_deleted"))) in
  let cursor_value :=
    if potentially_new_records_in_the_past
    then Ok cursor_value
    else match parse_cursor self current_stream_state with
         | Ok t => Ok (Some t)
         | Raise e => Raise e
         | OutOfFuel => OutOfFuel
         end in
  match cursor_value with
  | Ok cursor_value =>
      match unfinished_max current_stream_state with
      | Some e => Raise e
      | None =>
          Ok (<[ cursor_field (class self) := str cursor_value ]>
              {[ "include_deleted" := Bool (_include_deleted self) ]})
      end
  | Raise e => Raise e
  | OutOfFuel => OutOfFuel
  end.

End GetUpdatedState.

(** [_state_filter]. *)
Definition _state_filter (self : Stream) : Params :=
  match _state self with
  | Some state =>
      {| limit := None;
         filtering :=
           Some [ {| field := format_prefix (entity_prefix (class self))
                              +:+ "." +:+ cursor_field (class self);
                     operator := "GREATER_THAN";
                     value := IntTimestamp (Pendulum.int_timestamp state) |} ];
         others := ∅ |}
  | None => no_params
  end.

(** The test of the [continue] in [read]:
    [self._state and self._state.subtract(days=self.buffer_days + 1) >= cursor]. *)
Definition dropped (self : Stream) (cursor : Pendulum.DateTime) : bool :=
  match _state self with
  | Some state =>
      cursor <=? Pendulum.subtract_days state (buffer_days (class self) + 1)
  | None => false
  end.

(** The [for] loop of [read] over the records of [super().read]: the
    records yielded and the final [latest_cursor]. *)
Fixpoint read_loop (self : Stream) (records : list Entity)
    (latest_cursor : option Pendulum.DateTime)
  : list Entity * option Pendulum.DateTime :=
  match records with
  | [] => ([], latest_cursor)
  | record :: rest =>
      let cursor := updated_time record in
      if dropped self cursor
      then read_loop self rest latest_cursor
      else
        let latest_cursor :=
          match latest_cursor with
          | Some latest => Z.max cursor latest
          | None => cursor
          end in
        let '(out, final) := read_loop self rest (Some latest_cursor) in
        (record :: out, final)
  end.

(** The assignment to [self._state] after the loop. *)
Definition advance (self : Stream) (latest_cursor : option Pendulum.DateTime)
  : Stream :=
  match latest_cursor with
  | Some latest =>
      set_state self
        (Some match _state self with
              | Some state => Z.max latest state
              | None => latest
              end)
  | None => self
  end.

Section Read.

Variable deep_merge : Params -> Params -> Params.

(** [_build_params]. *)
Definition _build_params (self : Stream) (params : Params) : Params :=
  deep_merge (FBMarketingStream._build_params self params)
             (_state_filter self).

(** [read], run to the end: the records yielded and the stream with
    its [_state] as the pass leaves it. *)
Definition read (self : Stream) (getter : Params -> list Entity)
    (params : option Params) : list Entity * Stream :=
  let '(out, latest_cursor) :=
    read_loop self
      (FBMarketingStream.read deep_merge _build_params self getter params)
      None in
  (out, advance self latest_cursor).

(** Successive reads of one stream, each with its getter and
    parameters: the records of every pass and the stream at the end. *)
Fixpoint reads (self : Stream)
    (passes : list ((Params -> list Entity) * option Params))
  : list (list Entity) * Stream :=
  match passes with
  | [] => ([], self)
  | (getter, params) :: rest =>
      let '(out, self') := read self getter params in
      let '(outs, final) := reads self' rest in
      (out :: outs, final)
  end.

End Read.

End FBMarketingIncrementalStream.

Module AdsInsights.

Definition ALL_ACTION_ATTRIBUTION_WINDOWS : list string :=
  [ "1d_click"; "7d_click"; "28d_click"; "1d_view"; "7d_view"; "28d_view" ].

Definition ALL_ACTION_BREAKDOWNS : list string :=
  [ "action_type"; "action_target_id"; "action_destination" ].

Definition INVALID_INSIGHT_FIELDS : list string :=
  [ "impression_device"; "publisher_platform"; "platform_position";
    "age"; "gender"; "country"; "placement"; "region"; "dma" ].

Definition MAX_WAIT_TO_START : Pendulum.Interval := Pendulum.Interval_minutes 5.
Definition MAX_WAIT_TO_FINISH : Pendulum.Interval := Pendulum.Interval_minutes 30.
Definition MAX_ASYNC_SLEEP : Pendulum.Interval := Pendulum.Interval_minutes 5.

Definition level : string := "ad".
Definition action_attribution_windows : list string :=
  ALL_ACTION_ATTRIBUTION_WINDOWS.
Definition time_increment : Z := 1.

(** An [AdsInsights] object: the stream, the attributes its [__init__]
    adds, and the two class attributes its subclasses override. *)
Record Insights := {
  stream : Stream;
  _buffer_days : Z;
  _sync_interval : Pendulum.Interval;
  action_breakdowns : list string;
  breakdowns : option (list string)
}.

Definition __init__ (include_deleted : bool) (start_date : Pendulum.DateTime)
    (buffer_days days_per_job : Z) : Insights :=
  {| stream :=
       set_state
         (FBMarketingStream.__init__ AdsInsights_class include_deleted
            (Some start_date))
         (Some start_date);
     _buffer_days := buffer_days;
     _sync_interval := Pendulum.Interval_days days_per_job;
     action_breakdowns := ALL_ACTION_BREAKDOWNS;
     breakdowns := None |}.

(** *** wait_for_job *)

(** What [job.api_get()] returns. *)
Record Job := {
  async_status : string;
  async_percent_completion : Z;
  report_run_id : string
}.

(** One turn of the loop sees the refreshed job and the clock. *)
Record Poll := {
  polled : Job;
  now : Pendulum.DateTime
}.

Inductive Step :=
| Return (job : Job)
| Throw (e : Exception)
| Sleep.

(** The two [if] statements of the loop body, for the job polled and
    the [runtime] measured. *)
Definition check (job : Job) (runtime : Pendulum.Interval) : Step :=
  let job_progress_pct := async_percent_completion job in
  if String.eqb (async_status job) "Job Completed" then Return job
  else if String.eqb (async_status job) "Job Failed"
  then Throw (JobTimeoutException "failed" (Pendulum.in_seconds runtime))
  else if String.eqb (async_status job) "Job Skipped"
  then Throw (JobTimeoutException "skipped" (Pendulum.in_seconds runtime))
  else if (MAX_WAIT_TO_START <? runtime) && (job_progress_pct =? 0)
  then Throw (JobTimeoutException "did not start" (Pendulum.in_seconds runtime))
  else if MAX_WAIT_TO_FINISH <? runtime
  then Throw (JobTimeoutException "did not finish" (Pendulum.in_seconds runtime))
  else Sleep.

(** The statuses on which the loop returns or raises at once. *)
Definition terminal (job : Job) : bool :=
  String.eqb (async_status job) "Job Completed"
  || String.eqb (async_status job) "Job Failed"
  || String.eqb (async_status job) "Job Skipped".

Definition factor : Z := 2.

(** The update of [sleep_seconds] that ends the loop body. *)
Definition next_sleep (sleep_seconds : Z) : Z :=
  if sleep_seconds <? Pendulum.in_seconds MAX_ASYNC_SLEEP
  then sleep_seconds * factor
  else sleep_seconds.

(** The first statement of the loop body after the poll is
    [logger.info(...)], on the global name [logger].  The module binds no
    such name: as the module is written the name is looked up in vain and
    the call raises [NameError]. *)
Definition module_binds_logger : bool := false.

(** The [while True] loop, one turn for each poll that the environment
    provides: the arguments of the calls to [time.sleep], in order, and
    how the loop ended ([OutOfFuel] when it was still polling).  [logger]
    says whether the global name [logger] is bound when the loop runs;
    [start_time] is the time at which [wait_for_job] was entered. *)
Fixpoint wait_loop (logger : bool) (start_time : Pendulum.DateTime)
    (sleep_seconds : Z) (polls : list Poll) : list Z * Result Job :=
  match polls with
  | [] => ([], OutOfFuel)
  | poll :: rest =>
      if negb logger then ([], Raise NameError)
      else
        let runtime := now poll - start_time in
        match check (polled poll) runtime with
        | Return job => ([], Ok job)
        | Throw e => ([], Raise e)
        | Sleep =>
            let '(sleeps, result) :=
              wait_loop logger start_time (next_sleep sleep_seconds) rest in
            (sleep_seconds :: sleeps, result)
        end
  end.

Definition wait_for_job (logger : bool) (start_time : Pendulum.DateTime)
    (polls : list Poll) : list Z * Result Job :=
  let sleep_seconds := factor in
  wait_loop logger start_time sleep_seconds polls.

(** *** _params *)

Record InsightParams := {
  ip_level : string;
  ip_action_breakdowns : list string;
  ip_breakdowns : option (list string);
  ip_limit : Z;
  ip_fields : list string;
  ip_time_increment : Z;
  ip_action_attribution_windows : list string;
  (** ["since"] and ["until"], as days *)
  ip_time_range : Z * Z
}.

(** [list(set(fields) - set(self.INVALID_INSIGHT_FIELDS))]; Python leaves
    the order of the result open, here it is that of [fields]. *)
Definition valid_fields (fields : list string) : list string :=
  list_difference (remove_dups fields) INVALID_INSIGHT_FIELDS.

(** The [while] loop of [_params], unrolled at most [fuel] times. *)
Fixpoint _params_loop (fuel : nat) (self : Insights) (fields : list string)
    (buffered_start_date end_date : Pendulum.DateTime)
  : Result (list InsightParams) :=
  if buffered_start_date <=? end_date then
    match fuel with
    | O => OutOfFuel
    | S fuel' =>
        let buffered_end_date := buffered_start_date + _sync_interval self in
        match _params_loop fuel' self fields buffered_end_date end_date with
        | Ok rest =>
            Ok ({| ip_level := level;
                   ip_action_breakdowns := action_breakdowns self;
                   ip_breakdowns := breakdowns self;
                   ip_limit := page_size (class (stream self));
                   ip_fields := fields;
                   ip_time_increment := time_increment;
                   ip_action_attribution_windows := action_attribution_windows;
                   ip_time_range :=
                     (Pendulum.to_date_string buffered_start_date,
                      Pendulum.to_date_string buffered_end_date) |} :: rest)
        | Raise e => Raise e
        | OutOfFuel => OutOfFuel
        end
    end
  else Ok [].

(** [_params]; [end_date] is the reading of [pendulum.now()].  The
    subtraction uses the class attribute [buffer_days]. *)
Definition _params (fuel : nat) (self : Insights) (fields : list string)
    (end_date : Pendulum.DateTime) : Result (list InsightParams) :=
  match _state (stream self) with
  | None => Raise TypeError
  | Some state =>
      let buffered_start_date :=
        state - Pendulum.Interval_days (buffer_days (class (stream self))) in
      _params_loop fuel self (valid_fields fields) buffered_start_date end_date
  end.

End AdsInsights.

(** [{**a, **b}]: the entries of [b] replace those of [a] key by key. *)
Definition shallow_merge (a b : Params) : Params :=
  {| limit := match limit b with Some l => Some l | None => limit a end;
     filtering := match filtering b with Some f => Some f | None => filtering a end;
     others := others b ∪ others a |}.

Module Ads.

Section List.

Variable deep_merge : Params -> Params -> Params.
(** [self._api.account.get_ads] (its [fields] argument is [[cursor_field]])
    and [ad.api_get(fields).export_all_data()]. *)
Context {Exported : Type}.
Variable get_ads : Params -> list Entity.
Variable api_get : Entity -> Exported.

Definition _get_ads (self : Stream) (params : Params) : list Entity :=
  get_ads params.

(** The parameters of the calls to [get_ads] that [list] makes. *)
Definition api_requests (self : Stream) : list Params :=
  FBMarketingStream.read_requests deep_merge
    (FBMarketingIncrementalStream._build_params deep_merge) self None.

(** [list], run to the end. *)
Definition list (self : Stream) : list Exported * Stream :=
  let '(out, self') :=
    FBMarketingIncrementalStream.read deep_merge self (_get_ads self) None in
  (map api_get out, self').

End List.

End Ads.

(** [AdSets]; [Campaigns] has the same [list] and the same getter, on
    [get_campaigns]. *)
Module AdSets.

Section List.

Variable deep_merge : Params -> Params -> Params.
Context {Exported : Type}.
Variable get_ad_sets : Params -> list Entity.
Variable api_get : Entity -> Exported.

(** [_get_ad_sets]: [params={**params, **self._state_filter()}]. *)
Definition _get_ad_sets (self : Stream) (params : Params) : list Entity :=
  get_ad_sets (shallow_merge params (FBMarketingIncrementalStream._state_filter self)).

(** The parameters of the calls to [get_ad_sets] that [list] makes. *)
Definition api_requests (self : Stream) : list Params :=
  map (fun params =>
         shallow_merge params (FBMarketingIncrementalStream._state_filter self))
      (FBMarketingStream.read_requests deep_merge
         (FBMarketingIncrementalStream._build_params deep_merge) self None).

(** [list], run to the end. *)
Definition list (self : Stream) : list Exported * Stream :=
  let '(out, self') :=
    FBMarketingIncrementalStream.read deep_merge self (_get_ad_sets self) None in
  (map api_get out, self').

End List.

End AdSets.

End Facebook.

(** ** Notions used to state the properties *)

(** Order on a watermark that may not be set yet: unset is below all. *)
Definition state_le (a b : option Pendulum.DateTime) : Prop :=
  match a, b with
  | None, _ => True
  | Some _, None => False
  | Some x, Some y => x <= y
  end.

(** The newest cursor value among records, if there is any record. *)
Fixpoint newest (records : list Facebook.Entity) : option Pendulum.DateTime :=
  match records with
  | [] => None
  | r :: rest =>
      Some match newest rest with
           | Some m => Z.max (Facebook.updated_time r) m
           | None => Facebook.updated_time r
           end
  end.

(** The newer of a watermark and a newest cursor, either of which may be
    missing. *)
Definition newer (a b : option Pendulum.DateTime) : option Pendulum.DateTime :=
  match a, b with
  | Some x, Some y => Some (Z.max x y)
  | Some x, None => Some x
  | None, b => b
  end.

(** The successive values of [sleep_seconds]: [n] of them from [s] on. *)
Fixpoint sleep_values (s : Z) (n : nat) : list Z :=
  match n with
  | O => []
  | S n' => s :: sleep_values (Facebook.AdsInsights.next_sleep s) n'
  end.

(** A running job, 10% complete, polled [seconds] after the start. *)
Definition running_at (seconds : Z) : Facebook.AdsInsights.Poll :=
  {| Facebook.AdsInsights.polled :=
       {| Facebook.AdsInsights.async_status := "Job Running";
          Facebook.AdsInsights.async_percent_completion := 10;
          Facebook.AdsInsights.report_run_id := "1" |};
     Facebook.AdsInsights.now := Pendulum.Interval_seconds seconds |}.



(** A service that hands out the pages of a list, one for each request. *)
Definition paged_service (w : list Cloudtrail.Response) (_ : Cloudtrail.Params)
  : Cloudtrail.Response * list Cloudtrail.Response :=
  match w with
  | page :: rest => (page, rest)
  | [] => ({| Cloudtrail.Events := []; Cloudtrail.NextToken := None |}, [])
  end.

Definition two_pages : list Cloudtrail.Response :=
  [ {| Cloudtrail.Events :=
         [ {| Cloudtrail.EventId := "a"; Cloudtrail.EventTime := 1500000 |};
           {| Cloudtrail.EventId := "b"; Cloudtrail.EventTime := 2500000 |} ];
       Cloudtrail.NextToken := Some "t1" |};
    {| Cloudtrail.Events :=
         [ {| Cloudtrail.EventId := "c"; Cloudtrail.EventTime := 3500000 |} ];
       Cloudtrail.NextToken := None |} ].

(** Whether a loop has ended, by a value or by an exception. *)
Definition finished {A} (r : Result A) : bool :=
  match r with
  | OutOfFuel => false
  | _ => true
  end.

(** The sum of a list of durations. *)
Definition total (l : list Z) : Z := foldr Z.add 0 l.

(** The clock of the polls runs at least as fast as the sleeps: a poll made
    after sleeps that add up to [elapsed] seconds reads a time at least
    [elapsed] seconds after [start_time]. *)
Fixpoint clock_follows (start_time : Pendulum.DateTime) (elapsed sleep_seconds : Z)
    (polls : list Facebook.AdsInsights.Poll) : Prop :=
  match polls with
  | [] => True
  | poll :: rest =>
      Pendulum.Interval_seconds elapsed
      <= Facebook.AdsInsights.now poll - start_time
      /\ clock_follows start_time (elapsed + sleep_seconds)
           (Facebook.AdsInsights.next_sleep sleep_seconds) rest
  end.

(** The number of windows between [start] and [now] for windows of length
    [interval]. *)
Definition window_count (start now : Pendulum.DateTime)
    (interval : Pendulum.Interval) : nat :=
  if start <=? now then Z.to_nat ((now - start) / interval + 1) else O.

(** A job that keeps running, polled at the times the sleeps produce. *)
Definition twelve_polls : list Facebook.AdsInsights.Poll :=
  map running_at [0; 2; 6; 14; 30; 62; 126; 254; 510; 1022; 1534; 2046].

(** A service that answers every request with the same page. *)
Definition same_page_service (page : Cloudtrail.Response) (w : unit)
    (_ : Cloudtrail.Params) : Cloudtrail.Response * unit :=
  (page, w).

(** * Properties *)

Import Facebook.

(** ** Status slicer *)

Lemma take_chunks {A} (l : list A) (n m : nat) :
  concat (map (fun i => py_slice l i (i + n)) (map (fun k => (k * n)%nat) (seq 0 m)))
  = take (m * n) l.
Proof.
  induction m as [|m IH].
  - reflexivity.
  - rewrite seq_S, !map_app, concat_app, IH. cbn [map concat Nat.add].
    rewrite app_nil_r. unfold py_slice.
    replace (m * n + n - m * n)%nat with n by lia.
    replace (S m * n)%nat with (m * n + n)%nat by lia.
    apply take_take_drop.
Qed.

Lemma py_range_chunks_cover {A} (l : list A) (n : nat) :
  (1 <= n)%nat ->
  concat (map (fun i => py_slice l i (i + n)) (py_range (length l) n)) = l.
Proof.
  intros Hn. unfold py_range. rewrite take_chunks.
  apply take_ge.
  pose proof (Nat.div_mod_eq (length l + n - 1) n) as Hdiv.
  pose proof (Nat.mod_upper_bound (length l + n - 1) n) as Hmod.
  nia.
Qed.

Lemma py_slice_length {A} (l : list A) (i n : nat) :
  (length (py_slice l i (i + n)) <= n)%nat.
Proof. unfold py_slice. rewrite length_take. lia. Qed.

Lemma labels_of_status_filter (cls : Class) (chunk : list string) :
  FBMarketingStream.labels_of (FBMarketingStream.status_filter cls chunk) = chunk.
Proof. reflexivity. Qed.

Lemma labels_of_slices (cls : Class) (chunks : list (list string)) :
  map FBMarketingStream.labels_of (map (FBMarketingStream.status_filter cls) chunks)
  = chunks.
Proof.
  induction chunks as [|c cs IH]; [reflexivity|].
  cbn [map]. rewrite IH, labels_of_status_filter. reflexivity.
Qed.

(** C8.  For a chunk size of at least one, the subsets that the loop of
    [_status_slices] emits, put end to end, are the enumeration of the 14
    status labels, in its order; the labels are distinct, so that each one
    is in one subset, once; no subset is longer than the chunk size.  A stream
    whose class keeps [split_deleted_filter] false emits the one subset of
    all 14 labels; one whose class sets it emits the chunks of size 3, which
    are four subsets of three labels and the two labels that remain. *)
Theorem status_slices_cover (n : nat) (self : Stream) (Hn : (1 <= n)%nat) :
  concat (FBMarketingStream.chunks n) = FBMarketingStream.filt_values
  /\ concat (map FBMarketingStream.labels_of
                 (map (FBMarketingStream.status_filter (class self))
                      (FBMarketingStream.chunks n)))
     = FBMarketingStream.filt_values
  /\ Forall (fun chunk => (length chunk <= n)%nat) (FBMarketingStream.chunks n)
  /\ length FBMarketingStream.filt_values = 14%nat
  /\ NoDup FBMarketingStream.filt_values
  /\ map FBMarketingStream.labels_of (FBMarketingStream._status_slices self)
     = (if split_deleted_filter (class self)
        then FBMarketingStream.chunks 3
        else [FBMarketingStream.filt_values])
  /\ FBMarketingStream.chunks 3
     = [ ["active"; "archived"; "completed"];
         ["limited"; "not_delivering"; "deleted"];
         ["not_published"; "pending_review"; "permanently_deleted"];
         ["recently_completed"; "recently_rejected"; "rejected"];
         ["scheduled"; "inactive"] ].
Proof.
  assert (Hcover : concat (FBMarketingStream.chunks n) = FBMarketingStream.filt_values)
    by (apply py_range_chunks_cover; exact Hn).
  split; [exact Hcover|].
  split; [rewrite labels_of_slices; exact Hcover|].
  split.
  { unfold FBMarketingStream.chunks. apply Forall_map, Forall_forall.
    intros i _. apply py_slice_length. }
  split; [reflexivity|].
  split; [refine (bool_decide_unpack _ _); vm_compute; reflexivity|].
  split; [|reflexivity].
  unfold FBMarketingStream._status_slices. rewrite labels_of_slices.
  unfold FBMarketingStream.sub_list_length.
  destruct (split_deleted_filter (class self)); reflexivity.
Qed.

Lemma status_slices_cover_witness :
  (1 <= 5)%nat
  /\ concat (FBMarketingStream.chunks 5) = FBMarketingStream.filt_values.
Proof.
  split; [lia|].
  apply (status_slices_cover 5
           (set_state (FBMarketingStream.__init__ Ads_class true None)
              (Some (Pendulum.day 1)))).
  lia.
Defined.

(** ** Reading with and without the status slices *)

Lemma read_by_requests {R} deep_merge build (self : Stream)
    (getter : Params -> list R) (params : option Params) :
  FBMarketingStream.read deep_merge build self getter params
  = flat_map getter (FBMarketingStream.read_requests deep_merge build self params).
Proof.
  unfold FBMarketingStream.read, FBMarketingStream.read_requests.
  destruct (_include_deleted self).
  - induction (FBMarketingStream._status_slices self) as [|s l IH];
      [reflexivity|]. cbn [flat_map map]. rewrite IH. reflexivity.
  - cbn [flat_map]. rewrite app_nil_r. reflexivity.
Qed.

(** C10.  A stream built by [__init__] on a class whose [enable_deleted] is
    false has [_include_deleted] false, whatever [include_deleted] was
    passed, and keeps it when its [_state] is assigned; [read] on it makes
    one call to the getter, with the parameters built from [params] alone:
    no status slice is merged into a request. *)
Theorem include_deleted_needs_enable_deleted
    (cls : Class) (include_deleted : bool)
    (start_date state : option Pendulum.DateTime)
    (deep_merge : Params -> Params -> Params)
    (build : Stream -> Params -> Params)
    (getter : Params -> list Entity) (params : option Params)
    (Hcls : enable_deleted cls = false) :
  let self :=
    set_state (FBMarketingStream.__init__ cls include_deleted start_date) state in
  _include_deleted (FBMarketingStream.__init__ cls include_deleted start_date) = false
  /\ _include_deleted self = false
  /\ FBMarketingStream.read_requests deep_merge build self params
     = [build self (default no_params params)]
  /\ FBMarketingStream.read deep_merge build self getter params
     = getter (build self (default no_params params)).
Proof.
  cbn zeta.
  unfold FBMarketingStream.read, FBMarketingStream.read_requests.
  cbn [set_state FBMarketingStream.__init__ _include_deleted].
  rewrite Hcls. repeat split.
Qed.

Lemma include_deleted_needs_enable_deleted_witness :
  enable_deleted AdCreatives_class = false
  /\ _include_deleted (FBMarketingStream.__init__ AdCreatives_class true None)
     = false.
Proof.
  split; [reflexivity|].
  apply (include_deleted_needs_enable_deleted AdCreatives_class true None None
           (fun a _ => a) FBMarketingStream._build_params (fun _ => []) None).
  reflexivity.
Defined.

(** ** Incremental read: the filter and the watermark *)

Lemma read_loop_yields (self : Stream) (records : list Entity) latest_cursor :
  fst (FBMarketingIncrementalStream.read_loop self records latest_cursor)
  = List.filter
      (fun r => negb (FBMarketingIncrementalStream.dropped self (updated_time r)))
      records.
Proof.
  revert latest_cursor.
  induction records as [|r rest IH]; intros latest_cursor; [reflexivity|].
  cbn [FBMarketingIncrementalStream.read_loop List.filter].
  destruct (FBMarketingIncrementalStream.dropped self (updated_time r)); cbn [negb].
  - apply IH.
  - specialize (IH (Some match latest_cursor with
                         | Some latest => Z.max (updated_time r) latest
                         | None => updated_time r
                         end)).
    destruct (FBMarketingIncrementalStream.read_loop self rest _) as [out final].
    cbn [fst] in *. rewrite IH. reflexivity.
Qed.

Lemma read_loop_latest (self : Stream) (records : list Entity) latest_cursor :
  snd (FBMarketingIncrementalStream.read_loop self records latest_cursor)
  = newer latest_cursor
      (newest (fst (FBMarketingIncrementalStream.read_loop self records latest_cursor))).
Proof.
  revert latest_cursor.
  induction records as [|r rest IH]; intros latest_cursor.
  - destruct latest_cursor; reflexivity.
  - cbn [FBMarketingIncrementalStream.read_loop].
    destruct (FBMarketingIncrementalStream.dropped self (updated_time r)).
    + apply IH.
    + specialize (IH (Some match latest_cursor with
                           | Some latest => Z.max (updated_time r) latest
                           | None => updated_time r
                           end)).
      destruct (FBMarketingIncrementalStream.read_loop self rest _) as [out final].
      cbn [fst snd newest] in *. rewrite IH.
      destruct latest_cursor as [l|], (newest out) as [m|]; cbn [newer];
        f_equal; lia.
Qed.

Lemma advance_state (self : Stream) latest_cursor :
  _state (FBMarketingIncrementalStream.advance self latest_cursor)
  = newer (_state self) latest_cursor.
Proof.
  unfold FBMarketingIncrementalStream.advance.
  destruct latest_cursor as [l|], (_state self) as [s|] eqn:Hs;
    cbn [set_state _state newer]; rewrite ?Hs; try reflexivity.
  f_equal. lia.
Qed.

Lemma read_yields deep_merge (self : Stream) getter params :
  fst (FBMarketingIncrementalStream.read deep_merge self getter params)
  = List.filter
      (fun r => negb (FBMarketingIncrementalStream.dropped self (updated_time r)))
      (FBMarketingStream.read deep_merge
         (FBMarketingIncrementalStream._build_params deep_merge) self getter params).
Proof.
  unfold FBMarketingIncrementalStream.read.
  rewrite <- (read_loop_yields self _ None).
  destruct (FBMarketingIncrementalStream.read_loop self _ None). reflexivity.
Qed.

Lemma read_state deep_merge (self : Stream) getter params :
  _state (snd (FBMarketingIncrementalStream.read deep_merge self getter params))
  = newer (_state self)
      (newest (fst (FBMarketingIncrementalStream.read deep_merge self getter params))).
Proof.
  unfold FBMarketingIncrementalStream.read.
  pose proof (read_loop_latest self
    (FBMarketingStream.read deep_merge
       (FBMarketingIncrementalStream._build_params deep_merge) self getter params)
    None) as Hlatest.
  destruct (FBMarketingIncrementalStream.read_loop self _ None) as [out latest].
  cbn [fst snd] in *. rewrite advance_state, Hlatest. reflexivity.
Qed.

Lemma state_le_refl a : state_le a a.
Proof. destruct a; cbn; [lia|exact I]. Qed.

Lemma state_le_trans a b c : state_le a b -> state_le b c -> state_le a c.
Proof. destruct a, b, c; cbn; try tauto; lia. Qed.

Lemma state_le_newer a b : state_le a (newer a b).
Proof. destruct a, b; cbn; try exact I; lia. Qed.

Lemma read_monotone deep_merge (self : Stream) getter params :
  state_le (_state self)
    (_state (snd (FBMarketingIncrementalStream.read deep_merge self getter params))).
Proof. rewrite read_state. apply state_le_newer. Qed.

Lemma reads_app deep_merge (self : Stream) passes1 passes2 :
  snd (FBMarketingIncrementalStream.reads deep_merge self (passes1 ++ passes2))
  = snd (FBMarketingIncrementalStream.reads deep_merge
           (snd (FBMarketingIncrementalStream.reads deep_merge self passes1))
           passes2).
Proof.
  revert self. induction passes1 as [|[getter params] rest IH]; intros self.
  - reflexivity.
  - cbn [app FBMarketingIncrementalStream.reads].
    destruct (FBMarketingIncrementalStream.read deep_merge self getter params)
      as [out self'].
    specialize (IH self').
    destruct (FBMarketingIncrementalStream.reads deep_merge self' (rest ++ passes2)).
    destruct (FBMarketingIncrementalStream.reads deep_merge self' rest).
    cbn [snd] in *. exact IH.
Qed.

Lemma reads_monotone deep_merge (self : Stream) passes :
  state_le (_state self)
    (_state (snd (FBMarketingIncrementalStream.reads deep_merge self passes))).
Proof.
  revert self. induction passes as [|[getter params] rest IH]; intros self.
  - apply state_le_refl.
  - cbn [FBMarketingIncrementalStream.reads].
    pose proof (read_monotone deep_merge self getter params) as Hstep.
    destruct (FBMarketingIncrementalStream.read deep_merge self getter params)
      as [out self'].
    specialize (IH self').
    destruct (FBMarketingIncrementalStream.reads deep_merge self' rest).
    cbn [snd] in *. eapply state_le_trans; eassumption.
Qed.

(** C5.  A read pass leaves in [_state] the newer of the watermark it found
    and the newest cursor among the records it yielded; a pass that yields
    nothing leaves it as it was; the watermark after a pass is never older
    than before; and over any sequence of passes on one stream the watermark
    after the first [n] passes is never newer than after [n] passes and more. *)
Theorem watermark_never_regresses
    (deep_merge : Params -> Params -> Params) (self : Stream)
    (getter : Params -> list Entity) (params : option Params)
    (passes more : list ((Params -> list Entity) * option Params)) :
  let pass := FBMarketingIncrementalStream.read deep_merge self getter params in
  _state (snd pass) = newer (_state self) (newest (fst pass))
  /\ (fst pass = [] -> _state (snd pass) = _state self)
  /\ state_le (_state self) (_state (snd pass))
  /\ state_le
       (_state (snd (FBMarketingIncrementalStream.reads deep_merge self passes)))
       (_state (snd (FBMarketingIncrementalStream.reads deep_merge self
                       (passes ++ more)))).
Proof.
  cbn zeta. split; [apply read_state|]. split.
  { intros Hnone. rewrite read_state, Hnone. cbn [newest].
    destruct (_state self); reflexivity. }
  split; [apply read_monotone|].
  rewrite reads_app. apply reads_monotone.
Qed.

(** ** Pagination *)

Lemma converted_events_ids (datetime_to_timestamp : Pendulum.DateTime -> Z)
    (pages : list Cloudtrail.Response) :
  let converted :=
    flat_map
      (fun page =>
         map (fun event =>
                {| Cloudtrail.EventId := Cloudtrail.EventId event;
                   Cloudtrail.EventTime :=
                     datetime_to_timestamp (Cloudtrail.EventTime event) |})
             (Cloudtrail.Events page))
      pages in
  map Cloudtrail.EventId converted
  = flat_map (fun page => map Cloudtrail.EventId (Cloudtrail.Events page)) pages
  /\ length converted = length (flat_map Cloudtrail.Events pages).
Proof.
  cbn zeta. induction pages as [|page rest [IHids IHlen]]; [split; reflexivity|].
  cbn [flat_map]. split.
  - rewrite map_app, IHids, map_map. reflexivity.
  - rewrite !length_app, IHlen, length_map. reflexivity.
Qed.

Lemma read_records_loop_serves {World}
    (datetime_to_timestamp : Pendulum.DateTime -> Z)
    (send_request : World -> Cloudtrail.Params -> Cloudtrail.Response * World)
    (self : Cloudtrail.Stream) (stream_state : gmap string Z) :
  forall (pages : list Cloudtrail.Response) (w : World) (token : option string)
         (fuel : nat),
    Cloudtrail.serves send_request self stream_state w token pages ->
    (length pages <= fuel)%nat ->
    exists r,
      Cloudtrail.read_records_loop datetime_to_timestamp send_request fuel self
        stream_state token w
      = Some r
      /\ Cloudtrail.yielded r
         = flat_map
             (fun page =>
                map (fun event =>
                       {| Cloudtrail.EventId := Cloudtrail.EventId event;
                          Cloudtrail.EventTime :=
                            datetime_to_timestamp (Cloudtrail.EventTime event) |})
                    (Cloudtrail.Events page))
             pages
      /\ length (Cloudtrail.requests r) = length pages.
Proof.
  induction pages as [|page rest IH]; intros w token fuel Hserves Hfuel.
  - contradiction.
  - destruct fuel as [|fuel]; [cbn in Hfuel; lia|].
    cbn [Cloudtrail.serves] in Hserves.
    cbn [Cloudtrail.read_records_loop].
    destruct (send_request w (Cloudtrail.request_params self stream_state token))
      as [response w'].
    destruct Hserves as [-> Hrest].
    unfold Cloudtrail.next_page_token, Cloudtrail.parse_response.
    destruct rest as [|page' rest].
    + rewrite Hrest. cbn [truthy_opt negb].
      eexists. split; [reflexivity|]. cbn [Cloudtrail.yielded Cloudtrail.requests].
      split; [cbn [flat_map]; rewrite app_nil_r; reflexivity | reflexivity].
    + destruct Hrest as [[t [Ht Hne]] Hserves].
      rewrite Ht in *. cbn [truthy_opt].
      assert (truthy_str t = true) as -> by (destruct t; [contradiction|reflexivity]).
      cbn [negb].
      destruct (IH w' (Some t) fuel Hserves) as [r [Hr [Hy Hq]]];
        [cbn [length] in Hfuel |- *; lia|].
      rewrite Hr. eexists. split; [reflexivity|].
      cbn [Cloudtrail.yielded Cloudtrail.requests].
      split.
      * rewrite Hy. reflexivity.
      * cbn [length]. rewrite Hq. reflexivity.
Qed.

(** C9.  When the service answers the requests of [read_records] with a
    finite sequence of pages of which each carries a next-page token except
    the last, the loop ends, for any unrolling at least as long as the
    sequence.  It has then sent one request for each page and yielded one
    record for each event of each page, once, in page order and in the order
    of the page: the event with its identifier, and its time converted by
    [datetime_to_timestamp]. *)
Theorem read_records_yields_every_page {World : Type}
    (datetime_to_timestamp : Pendulum.DateTime -> Z)
    (send_request : World -> Cloudtrail.Params -> Cloudtrail.Response * World)
    (self : Cloudtrail.Stream) (stream_state : option (gmap string Z))
    (w : World) (pages : list Cloudtrail.Response) (fuel : nat)
    (Hpages : Cloudtrail.serves send_request self (default ∅ stream_state)
                w None pages)
    (Hfuel : (length pages <= fuel)%nat) :
  exists r,
    Cloudtrail.read_records datetime_to_timestamp send_request fuel self
      stream_state w
    = Some r
    /\ Cloudtrail.yielded r
       = flat_map
           (fun page =>
              map (fun event =>
                     {| Cloudtrail.EventId := Cloudtrail.EventId event;
                        Cloudtrail.EventTime :=
                          datetime_to_timestamp (Cloudtrail.EventTime event) |})
                  (Cloudtrail.Events page))
           pages
    /\ map Cloudtrail.EventId (Cloudtrail.yielded r)
       = flat_map (fun page => map Cloudtrail.EventId (Cloudtrail.Events page))
           pages
    /\ length (Cloudtrail.yielded r) = length (flat_map Cloudtrail.Events pages)
    /\ length (Cloudtrail.requests r) = length pages.
Proof.
  unfold Cloudtrail.read_records.
  destruct (read_records_loop_serves datetime_to_timestamp send_request self
              (default ∅ stream_state) pages w None fuel Hpages Hfuel)
    as [r [Hr [Hy Hq]]].
  exists r. split; [exact Hr|]. split; [exact Hy|].
  destruct (converted_events_ids datetime_to_timestamp pages) as [Hids Hlen].
  cbn zeta in Hids, Hlen. rewrite Hy.
  split; [exact Hids|]. split; [exact Hlen|exact Hq].
Qed.

Lemma read_records_yields_every_page_witness :
  Cloudtrail.serves paged_service {| Cloudtrail.start_date := 0 |} ∅
    two_pages None two_pages
  /\ (length two_pages <= 2)%nat
  /\ exists r,
       Cloudtrail.read_records (fun date => Z.quot date 1000000) paged_service 2
         {| Cloudtrail.start_date := 0 |} None two_pages
       = Some r
       /\ Cloudtrail.yielded r
          = [ {| Cloudtrail.EventId := "a"; Cloudtrail.EventTime := 1 |};
              {| Cloudtrail.EventId := "b"; Cloudtrail.EventTime := 2 |};
              {| Cloudtrail.EventId := "c"; Cloudtrail.EventTime := 3 |} ].
Proof.
  assert (Hserves : Cloudtrail.serves paged_service {| Cloudtrail.start_date := 0 |}
                      ∅ two_pages None two_pages).
  { cbn. split; [reflexivity|]. split.
    - exists "t1". split; [reflexivity|discriminate].
    - split; reflexivity. }
  split; [exact Hserves|].
  split; [cbn; lia|].
  destruct (read_records_yields_every_page (fun date => Z.quot date 1000000)
              paged_service {| Cloudtrail.start_date := 0 |} None two_pages
              two_pages 2 Hserves ltac:(cbn; lia))
    as [r [Hr [Hy _]]].
  exists r. split; [exact Hr|]. rewrite Hy. reflexivity.
Defined.

(** ** Incremental read: which records are dropped *)

(** C3, as stated, fails: on an [Ads] stream whose watermark is day 100 a
    record whose cursor is day 100 is dropped, and day 100 is not strictly
    older than the watermark minus [buffer_days + 1 = 0] days. *)
Lemma dropped_at_boundary_counterexample :
  exists (self : Stream) (W : Pendulum.DateTime) (record : Entity),
    _state self = Some W
    /\ fst (FBMarketingIncrementalStream.read (fun a _ => a) self
              (fun _ => [record]) None) = []
    /\ ~ updated_time record
         < Pendulum.subtract_days W (buffer_days (class self) + 1).
Proof.
  exists (set_state (FBMarketingStream.__init__ Ads_class false None)
            (Some (Pendulum.day 100))),
         (Pendulum.day 100),
         {| id := "1"; updated_time := Pendulum.day 100 |}.
  split; [reflexivity|]. split; [reflexivity|].
  vm_compute. intros H. discriminate H.
Qed.

(** C3, amended.  With the watermark set to [W], the records that a read
    yields are those of the underlying read whose cursor is newer than [W]
    minus [buffer_days + 1] days, in their order: a record is dropped if and
    only if its cursor is at or before that boundary.  With the
    [buffer_days = -1] of the stream classes the boundary is [W]: a record
    at or before the watermark is not yielded.  For any [buffer_days] of at
    least -1 a record newer than the watermark is yielded. *)
Theorem read_drops_at_or_before_boundary
    (deep_merge : Params -> Params -> Params) (self : Stream)
    (getter : Params -> list Entity) (params : option Params)
    (W : Pendulum.DateTime) (HW : _state self = Some W) :
  let records :=
    FBMarketingStream.read deep_merge
      (FBMarketingIncrementalStream._build_params deep_merge) self getter params in
  let out := fst (FBMarketingIncrementalStream.read deep_merge self getter params) in
  let boundary := Pendulum.subtract_days W (buffer_days (class self) + 1) in
  out = List.filter (fun r => negb (updated_time r <=? boundary)) records
  /\ (forall r, In r records -> (~ In r out <-> updated_time r <= boundary))
  /\ (buffer_days (class self) = -1 ->
      forall r, In r records -> updated_time r <= W -> ~ In r out)
  /\ (-1 <= buffer_days (class self) ->
      forall r, In r records -> W < updated_time r -> In r out).
Proof.
  cbn zeta.
  assert (Hout :
    fst (FBMarketingIncrementalStream.read deep_merge self getter params)
    = List.filter
        (fun r => negb (updated_time r
                        <=? Pendulum.subtract_days W (buffer_days (class self) + 1)))
        (FBMarketingStream.read deep_merge
           (FBMarketingIncrementalStream._build_params deep_merge)
           self getter params)).
  { rewrite read_yields. unfold FBMarketingIncrementalStream.dropped.
    rewrite HW. reflexivity. }
  rewrite Hout.
  assert (Hin : forall r,
    In r (FBMarketingStream.read deep_merge
            (FBMarketingIncrementalStream._build_params deep_merge)
            self getter params) ->
    (In r (List.filter
             (fun r => negb (updated_time r
                             <=? Pendulum.subtract_days W
                                   (buffer_days (class self) + 1)))
             (FBMarketingStream.read deep_merge
                (FBMarketingIncrementalStream._build_params deep_merge)
                self getter params))
     <-> Pendulum.subtract_days W (buffer_days (class self) + 1) < updated_time r)).
  { intros r Hr. rewrite List.filter_In, negb_true_iff, Z.leb_gt. tauto. }
  split; [reflexivity|]. split; [|split].
  - intros r Hr. rewrite (Hin r Hr). lia.
  - intros Hb r Hr Hle. rewrite (Hin r Hr), Hb.
    unfold Pendulum.subtract_days, Pendulum.Interval_days. lia.
  - intros Hb r Hr Hlt. apply (Hin r Hr).
    unfold Pendulum.subtract_days, Pendulum.Interval_days,
      Pendulum.SECONDS_PER_DAY, Pendulum.MICROS_PER_SECOND. lia.
Qed.

Lemma read_drops_at_or_before_boundary_witness :
  _state (set_state (FBMarketingStream.__init__ Ads_class false None)
            (Some (Pendulum.day 100)))
  = Some (Pendulum.day 100)
  /\ fst (FBMarketingIncrementalStream.read (fun a _ => a)
            (set_state (FBMarketingStream.__init__ Ads_class false None)
               (Some (Pendulum.day 100)))
            (fun _ => [ {| id := "1"; updated_time := Pendulum.day 99 |};
                        {| id := "2"; updated_time := Pendulum.day 100 |};
                        {| id := "3"; updated_time := Pendulum.day 101 |} ])
            None)
     = [ {| id := "3"; updated_time := Pendulum.day 101 |} ].
Proof.
  split; [reflexivity|].
  pose proof (read_drops_at_or_before_boundary (fun a _ => a)
    (set_state (FBMarketingStream.__init__ Ads_class false None)
       (Some (Pendulum.day 100)))
    (fun _ => [ {| id := "1"; updated_time := Pendulum.day 99 |};
                {| id := "2"; updated_time := Pendulum.day 100 |};
                {| id := "3"; updated_time := Pendulum.day 101 |} ])
    None (Pendulum.day 100) eq_refl) as [Hout _].
  cbn zeta in Hout. rewrite Hout. reflexivity.
Defined.

(** ** The job poller *)





Lemma wait_loop_unbound_logger (start_time : Pendulum.DateTime) (sleep_seconds : Z)
    (poll : AdsInsights.Poll) (rest : list AdsInsights.Poll) :
  AdsInsights.wait_loop false start_time sleep_seconds (poll :: rest)
  = ([], Raise NameError).
Proof. reflexivity. Qed.






Lemma wait_loop_sleeps (logger : bool) (start_time : Pendulum.DateTime)
    (polls : list AdsInsights.Poll) :
  forall sleep_seconds,
    fst (AdsInsights.wait_loop logger start_time sleep_seconds polls)
    = sleep_values sleep_seconds
        (length (fst (AdsInsights.wait_loop logger start_time sleep_seconds polls))).
Proof.
  induction polls as [|poll rest IH]; intros sleep_seconds; [reflexivity|].
  cbn [AdsInsights.wait_loop]. destruct logger; cbn [negb]; [|reflexivity].
  destruct (AdsInsights.check _ _); try reflexivity.
  specialize (IH (AdsInsights.next_sleep sleep_seconds)).
  destruct (AdsInsights.wait_loop true start_time _ rest) as [sleeps result].
  cbn [fst length sleep_values] in *. rewrite <- IH. reflexivity.
Qed.

Lemma sleep_values_pinned (s : Z) (n : nat) :
  AdsInsights.next_sleep s = s -> sleep_values s n = repeat s n.
Proof.
  intros Hfix. induction n as [|n IH]; [reflexivity|].
  cbn [sleep_values repeat]. rewrite Hfix, IH. reflexivity.
Qed.

(** C1 on the code.  As the module is written, [wait_for_job] raises
    [NameError] at its first poll, whatever the job reports, and never
    sleeps: the log call at the head of the loop body names a global [logger]
    that the module does not bind (the log call further down goes through
    [self.logger]).  With [logger] bound the sleeps of every run are the first
    values of one sequence, which starts 2, 4, ..., 256 and goes on with 512
    for ever: the test before the doubling lets 256 through, and 512 is above
    the 300 seconds of [MAX_ASYNC_SLEEP]. *)
Theorem wait_for_job_never_sleeps_as_the_claim_says
    (start_time : Pendulum.DateTime)
    (poll : AdsInsights.Poll) (polls : list AdsInsights.Poll) :
  AdsInsights.wait_for_job AdsInsights.module_binds_logger start_time (poll :: polls)
  = ([], Raise NameError)
  /\ AdsInsights.wait_for_job AdsInsights.module_binds_logger 0
       (map running_at [0; 2; 6; 14; 30; 62; 126; 254; 510])
     = ([], Raise NameError)
  /\ fst (AdsInsights.wait_for_job true start_time polls)
     = sleep_values 2 (length (fst (AdsInsights.wait_for_job true start_time polls)))
  /\ (forall n : nat,
        sleep_values 2 (8 + n) = [2; 4; 8; 16; 32; 64; 128; 256] ++ repeat 512 n)
  /\ Pendulum.in_seconds AdsInsights.MAX_ASYNC_SLEEP = 300
  /\ AdsInsights.next_sleep 256 = 512
  /\ AdsInsights.next_sleep 512 = 512
  /\ AdsInsights.wait_for_job true 0
       (map running_at [0; 2; 6; 14; 30; 62; 126; 254; 510])
     = ([2; 4; 8; 16; 32; 64; 128; 256; 512], OutOfFuel).
Proof.
  split; [reflexivity|]. split; [reflexivity|].
  split; [apply wait_loop_sleeps|].
  split; [|repeat split].
  intros n. change (sleep_values 2 (8 + n))
    with ([2; 4; 8; 16; 32; 64; 128; 256] ++ sleep_values 512 n).
  rewrite sleep_values_pinned; reflexivity.
Qed.

(** ** The window planner *)

Lemma _params_loop_total (self : AdsInsights.Insights) (fields : list string)
    (end_date : Pendulum.DateTime) :
  0 < AdsInsights._sync_interval self ->
  forall (fuel : nat) (buffered_start_date : Pendulum.DateTime),
    end_date - buffered_start_date < Z.of_nat fuel * AdsInsights._sync_interval self ->
    exists windows,
      AdsInsights._params_loop fuel self fields buffered_start_date end_date
      = Ok windows.
Proof.
  intros Hpos. induction fuel as [|fuel IH]; intros start Hfuel.
  - cbn [AdsInsights._params_loop].
    destruct (Z.leb_spec start end_date); [lia|]. eexists. reflexivity.
  - cbn [AdsInsights._params_loop].
    destruct (Z.leb_spec start end_date); [|eexists; reflexivity].
    destruct (IH (start + AdsInsights._sync_interval self)) as [rest Hrest];
      [lia|].
    rewrite Hrest. eexists. reflexivity.
Qed.

(** C2 on the code.  With the watermark at day 100, windows of 10 days and
    the clock at day 130, [_params] returns, whatever buffer the stream was
    configured with (5 days for one), the three windows that start at day
    101: it subtracts the class attribute [buffer_days], which is -1, and
    never reads the configured [_buffer_days].  The windows of the claim are
    [95,105), [105,115), [115,125), [125,135). *)
Theorem params_ignore_configured_buffer (configured : Z) (fields : list string) :
  buffer_days (class (AdsInsights.stream
                        (AdsInsights.__init__ false (Pendulum.day 100) configured 10)))
  = -1
  /\ AdsInsights._buffer_days
       (AdsInsights.__init__ false (Pendulum.day 100) configured 10)
     = configured
  /\ exists windows,
       AdsInsights._params 4
         (AdsInsights.__init__ false (Pendulum.day 100) configured 10)
         fields (Pendulum.day 130)
       = Ok windows
       /\ map AdsInsights.ip_time_range windows
          = [(101, 111); (111, 121); (121, 131)].
Proof.
  split; [reflexivity|]. split; [reflexivity|].
  eexists. split; reflexivity.
Qed.

(** ** The state update *)

Lemma cloudtrail_get_updated_state_max (current_stream_state : gmap string Z)
    (latest_record : Cloudtrail.Event Z) :
  Cloudtrail.get_updated_state current_stream_state latest_record
    !! Cloudtrail.cursor_field
  = Some (Z.max (Cloudtrail.EventTime latest_record)
                (default 0 (current_stream_state !! Cloudtrail.cursor_field)))
  /\ default 0 (current_stream_state !! Cloudtrail.cursor_field)
     <= default 0 (Cloudtrail.get_updated_state current_stream_state latest_record
                     !! Cloudtrail.cursor_field).
Proof.
  unfold Cloudtrail.get_updated_state. rewrite lookup_singleton_eq.
  split; [reflexivity|]. cbn [default from_option]. unfold Datatypes.id. lia.
Qed.

(** C4 on the code of [FBMarketingIncrementalStream].  An [Ads] stream
    without [include_deleted], a state whose cursor is day 10 and a latest
    record whose cursor is day 20: [get_updated_state] returns, if it
    returns, the cursor of day 10 and not day 20, the newer of the two; the
    record is never read.  With [include_deleted] newly set, a start date of
    day 5 and the same state, the cursor returned is day 5, older than the
    stored one. *)
Theorem get_updated_state_ignores_latest_record
    (parse_start_date : option Pendulum.DateTime -> Result Pendulum.DateTime)
    (unfinished_max : gmap string Value -> option Exception) :
  let stored : gmap string Value :=
    <[ "updated_time" := Cursor (Pendulum.day 10) ]>
      {[ "include_deleted" := Bool false ]} in
  let latest_record := {| id := "1"; updated_time := Pendulum.day 20 |} in
  FBMarketingIncrementalStream.get_updated_state parse_start_date unfinished_max
    (FBMarketingStream.__init__ Ads_class false None) stored latest_record
  = match unfinished_max stored with
    | Some e => Raise e
    | None =>
        Ok (<[ "updated_time" := Cursor (Pendulum.day 10) ]>
              {[ "include_deleted" := Bool false ]})
    end
  /\ FBMarketingIncrementalStream.get_updated_state parse_start_date unfinished_max
       (FBMarketingStream.__init__ Ads_class true (Some (Pendulum.day 5)))
       stored latest_record
     = match unfinished_max stored with
       | Some e => Raise e
       | None =>
           Ok (<[ "updated_time" := Cursor (Pendulum.day 5) ]>
                 {[ "include_deleted" := Bool true ]})
       end
  /\ Pendulum.day 5 < Pendulum.day 10 < Z.max (Pendulum.day 20) (Pendulum.day 10).
Proof.
  cbn zeta. split; [|split; [|vm_compute; split; reflexivity]].
  - unfold FBMarketingIncrementalStream.get_updated_state,
      FBMarketingIncrementalStream.parse_cursor.
    cbn [FBMarketingStream.__init__ _include_deleted _start_date class andb].
    change (cursor_field Ads_class) with "updated_time".
    rewrite lookup_insert_eq. reflexivity.
  - unfold FBMarketingIncrementalStream.get_updated_state.
    cbn [FBMarketingStream.__init__ _include_deleted _start_date class].
    change (enable_deleted Ads_class) with true. cbn match.
    rewrite lookup_insert_ne by discriminate.
    rewrite lookup_singleton_eq. reflexivity.
Qed.

(** * Further properties of the code *)

(** ** Cloudtrail: the request parameters *)

Lemma request_params_token (self : Cloudtrail.Stream) (stream_state : gmap string Z)
    (token : option string) :
  Cloudtrail.p_NextToken (Cloudtrail.request_params self stream_state token)
  = if truthy_opt truthy_str token then token else None.
Proof.
  unfold Cloudtrail.request_params.
  destruct (truthy_opt truthy_int (stream_state !! Cloudtrail.cursor_field));
    reflexivity.
Qed.

(** X1.  The parameters of a request always ask for 25 results; the cursor
    of the state, when it is there and not zero, is sent as the start time in
    place of the configured start date; and no request carries a start time
    of zero or an empty next-page token. *)
Theorem request_params_carry_truthy_values
    (self : Cloudtrail.Stream) (stream_state : gmap string Z)
    (token : option string) :
  let params := Cloudtrail.request_params self stream_state token in
  Cloudtrail.p_MaxResults params = 25
  /\ (forall cursor, stream_state !! "StartTime" = Some cursor -> cursor <> 0 ->
      Cloudtrail.p_StartTime params = Some cursor)
  /\ Cloudtrail.p_StartTime params <> Some 0
  /\ Cloudtrail.p_NextToken params <> Some EmptyString
  /\ (forall t, token = Some t -> t <> EmptyString ->
      Cloudtrail.p_NextToken params = Some t).
Proof.
  cbn zeta. split; [|split; [|split; [|split]]].
  - unfold Cloudtrail.request_params.
    destruct (truthy_opt truthy_int _); reflexivity.
  - intros cursor Hcursor Hne. unfold Cloudtrail.request_params.
    change Cloudtrail.cursor_field with "StartTime". rewrite Hcursor.
    cbn [truthy_opt]. unfold truthy_int.
    destruct (Z.eqb_spec cursor 0); [contradiction|reflexivity].
  - unfold Cloudtrail.request_params, Cloudtrail.base_request_params.
    destruct (stream_state !! Cloudtrail.cursor_field) as [cursor|];
      cbn [truthy_opt Cloudtrail.p_StartTime].
    + unfold truthy_int at 1. destruct (Z.eqb_spec cursor 0) as [->|Hne];
        cbn [negb Cloudtrail.p_StartTime].
      * unfold truthy_int.
        destruct (Z.eqb_spec (Cloudtrail.start_date self) 0); cbn [negb];
          congruence.
      * congruence.
    + unfold truthy_int.
      destruct (Z.eqb_spec (Cloudtrail.start_date self) 0); cbn [negb];
        congruence.
  - rewrite request_params_token.
    destruct token as [[|c t]|]; cbn [truthy_opt truthy_str]; congruence.
  - intros t -> Hne. rewrite request_params_token.
    destruct t; [contradiction|reflexivity].
Qed.

(** ** Cloudtrail: the state update over a run of records *)

Lemma foldr_max_base (l : list Z) (t base : Z) :
  foldr Z.max (Z.max t base) l = Z.max t (foldr Z.max base l).
Proof. induction l as [|x xs IH]; cbn [foldr]; [reflexivity|]. rewrite IH. lia. Qed.

Lemma get_updated_state_run (records : list (Cloudtrail.Event Z))
    (stream_state : gmap string Z) :
  default 0 (fold_left Cloudtrail.get_updated_state records stream_state
               !! Cloudtrail.cursor_field)
  = foldr Z.max (default 0 (stream_state !! Cloudtrail.cursor_field))
      (map Cloudtrail.EventTime records).
Proof.
  revert stream_state. induction records as [|r rest IH]; intros stream_state.
  - reflexivity.
  - cbn [fold_left map foldr]. rewrite IH.
    unfold Cloudtrail.get_updated_state. rewrite lookup_singleton_eq.
    cbn [default from_option]. unfold Datatypes.id.
    apply foldr_max_base.
Qed.

Lemma get_updated_state_run_singleton (records : list (Cloudtrail.Event Z))
    (stream_state : gmap string Z) :
  records <> [] ->
  fold_left Cloudtrail.get_updated_state records stream_state
  = {[ Cloudtrail.cursor_field :=
         foldr Z.max (default 0 (stream_state !! Cloudtrail.cursor_field))
           (map Cloudtrail.EventTime records) ]}.
Proof.
  intros Hne. rewrite <- get_updated_state_run.
  destruct records as [|r rest _] using rev_ind; [contradiction|].
  rewrite fold_left_app. cbn [fold_left].
  set (before := fold_left Cloudtrail.get_updated_state rest stream_state).
  unfold Cloudtrail.get_updated_state. rewrite lookup_singleton_eq.
  reflexivity.
Qed.

Lemma foldr_max_permutation (base : Z) (l1 l2 : list Z) :
  Permutation l1 l2 -> foldr Z.max base l1 = foldr Z.max base l2.
Proof.
  induction 1 as [|x l1 l2 _ IH|x y l|l1 l2 l3 _ IH1 _ IH2]; cbn [foldr].
  - reflexivity.
  - rewrite IH. reflexivity.
  - lia.
  - congruence.
Qed.

(** X2.  Updating the state with the records of a run, one after the other,
    leaves as cursor the largest of the event times and of the cursor the
    state had (zero when it had none); it is never below the cursor the state
    had; and the state that results does not depend on the order in which the
    records came. *)
Theorem get_updated_state_run_is_max
    (records reordered : list (Cloudtrail.Event Z)) (stream_state : gmap string Z)
    (Hperm : Permutation records reordered) :
  let final := fold_left Cloudtrail.get_updated_state records stream_state in
  default 0 (final !! "StartTime")
  = foldr Z.max (default 0 (stream_state !! "StartTime"))
      (map Cloudtrail.EventTime records)
  /\ default 0 (stream_state !! "StartTime") <= default 0 (final !! "StartTime")
  /\ Forall (fun r => Cloudtrail.EventTime r <= default 0 (final !! "StartTime"))
       records
  /\ fold_left Cloudtrail.get_updated_state reordered stream_state = final.
Proof.
  cbn zeta. change "StartTime" with Cloudtrail.cursor_field.
  rewrite get_updated_state_run.
  split; [reflexivity|]. split; [|split].
  - induction (map Cloudtrail.EventTime records) as [|x xs IH]; cbn [foldr]; lia.
  - clear Hperm. induction records as [|r rest IH]; constructor.
    + cbn [map foldr]. lia.
    + cbn [map foldr]. eapply Forall_impl; [exact IH|].
      cbn beta. intros a Ha. lia.
  - destruct records as [|r rest].
    + apply Permutation_nil_l in Hperm. subst reordered. reflexivity.
    + assert (reordered <> []) as Hne.
      { intros ->. apply Permutation_nil_r in Hperm. discriminate Hperm. }
      rewrite !get_updated_state_run_singleton by (exact Hne || discriminate).
      f_equal. symmetry. apply foldr_max_permutation.
      apply Permutation_map. exact Hperm.
Qed.

Lemma get_updated_state_run_is_max_witness :
  Permutation
    [ {| Cloudtrail.EventId := "a"; Cloudtrail.EventTime := 5 |};
      {| Cloudtrail.EventId := "b"; Cloudtrail.EventTime := 9 |} ]
    [ {| Cloudtrail.EventId := "b"; Cloudtrail.EventTime := 9 |};
      {| Cloudtrail.EventId := "a"; Cloudtrail.EventTime := 5 |} ]
  /\ default 0
       (fold_left Cloudtrail.get_updated_state
          [ {| Cloudtrail.EventId := "a"; Cloudtrail.EventTime := 5 |};
            {| Cloudtrail.EventId := "b"; Cloudtrail.EventTime := 9 |} ]
          ({[ "StartTime" := 7 ]} : gmap string Z) !! "StartTime")
     = 9.
Proof.
  split; [apply perm_swap|].
  pose proof (get_updated_state_run_is_max
    [ {| Cloudtrail.EventId := "a"; Cloudtrail.EventTime := 5 |};
      {| Cloudtrail.EventId := "b"; Cloudtrail.EventTime := 9 |} ]
    [ {| Cloudtrail.EventId := "b"; Cloudtrail.EventTime := 9 |};
      {| Cloudtrail.EventId := "a"; Cloudtrail.EventTime := 5 |} ]
    {[ "StartTime" := 7 ]} (perm_swap _ _ _)) as [Hmax _].
  cbn zeta in Hmax. rewrite Hmax. rewrite lookup_singleton_eq. reflexivity.
Defined.

(** ** Cloudtrail: pagination that does not end, and the tokens sent *)

(** X4.  When every response of the service carries a non-empty next-page
    token, the loop of [read_records] never ends: however far it is unrolled
    it is still paginating. *)
Theorem read_records_never_ends_on_endless_tokens {World : Type}
    (datetime_to_timestamp : Pendulum.DateTime -> Z)
    (send_request : World -> Cloudtrail.Params -> Cloudtrail.Response * World)
    (self : Cloudtrail.Stream) (stream_state : option (gmap string Z))
    (w : World) (fuel : nat)
    (Hendless : forall w params,
       truthy_opt truthy_str (Cloudtrail.NextToken (fst (send_request w params)))
       = true) :
  Cloudtrail.read_records datetime_to_timestamp send_request fuel self
    stream_state w
  = None.
Proof.
  unfold Cloudtrail.read_records.
  generalize (@None string) as token. revert w.
  induction fuel as [|fuel IH]; intros w token; [reflexivity|].
  cbn [Cloudtrail.read_records_loop].
  specialize (Hendless w
    (Cloudtrail.request_params self (default ∅ stream_state) token)) as Htoken.
  destruct (send_request w _) as [response w'].
  cbn [fst] in Htoken. unfold Cloudtrail.next_page_token.
  rewrite Htoken. cbn [negb]. rewrite IH. reflexivity.
Qed.

Lemma read_records_never_ends_on_endless_tokens_witness :
  (forall (w : unit) params,
     truthy_opt truthy_str
       (Cloudtrail.NextToken
          (fst (same_page_service
                  {| Cloudtrail.Events := []; Cloudtrail.NextToken := Some "t" |}
                  w params)))
     = true)
  /\ Cloudtrail.read_records (fun date => Z.quot date 1000000)
       (same_page_service
          {| Cloudtrail.Events := []; Cloudtrail.NextToken := Some "t" |})
       50 {| Cloudtrail.start_date := 0 |} None tt
     = None.
Proof.
  split; [reflexivity|].
  apply (read_records_never_ends_on_endless_tokens
           (fun date => Z.quot date 1000000)
           (same_page_service
              {| Cloudtrail.Events := []; Cloudtrail.NextToken := Some "t" |})).
  reflexivity.
Defined.

Lemma read_records_loop_tokens {World}
    (datetime_to_timestamp : Pendulum.DateTime -> Z)
    (send_request : World -> Cloudtrail.Params -> Cloudtrail.Response * World)
    (self : Cloudtrail.Stream) (stream_state : gmap string Z) :
  forall (pages : list Cloudtrail.Response) (w : World) (token : option string)
         (fuel : nat),
    Cloudtrail.serves send_request self stream_state w token pages ->
    (length pages <= fuel)%nat ->
    exists r,
      Cloudtrail.read_records_loop datetime_to_timestamp send_request fuel self
        stream_state token w
      = Some r
      /\ map Cloudtrail.p_NextToken (Cloudtrail.requests r)
         = (if truthy_opt truthy_str token then token else None)
           :: map Cloudtrail.NextToken (removelast pages)
      /\ Forall (fun params =>
                   Cloudtrail.p_MaxResults params = Cloudtrail.limit
                   /\ Cloudtrail.p_StartTime params
                      = Cloudtrail.p_StartTime
                          (Cloudtrail.request_params self stream_state None))
           (Cloudtrail.requests r).
Proof.
  assert (Hsame : forall token,
    Cloudtrail.p_MaxResults (Cloudtrail.request_params self stream_state token)
    = Cloudtrail.limit
    /\ Cloudtrail.p_StartTime (Cloudtrail.request_params self stream_state token)
       = Cloudtrail.p_StartTime (Cloudtrail.request_params self stream_state None)).
  { intros token. unfold Cloudtrail.request_params.
    destruct (truthy_opt truthy_int _); split; reflexivity. }
  induction pages as [|page rest IH]; intros w token fuel Hserves Hfuel.
  - contradiction.
  - destruct fuel as [|fuel]; [cbn in Hfuel; lia|].
    cbn [Cloudtrail.serves] in Hserves.
    cbn [Cloudtrail.read_records_loop].
    destruct (send_request w (Cloudtrail.request_params self stream_state token))
      as [response w'].
    destruct Hserves as [-> Hrest].
    unfold Cloudtrail.next_page_token.
    destruct rest as [|page' rest].
    + rewrite Hrest. cbn [truthy_opt negb].
      eexists. split; [reflexivity|].
      cbn [Cloudtrail.requests map removelast].
      rewrite request_params_token. split; [reflexivity|].
      constructor; [apply Hsame|constructor].
    + destruct Hrest as [[t [Ht Hne]] Hserves].
      rewrite Ht in *. cbn [truthy_opt].
      assert (Htruthy : truthy_str t = true)
        by (destruct t; [contradiction|reflexivity]).
      rewrite Htruthy. cbn [negb].
      destruct (IH w' (Some t) fuel Hserves) as [r [Hr [Htokens Hall]]];
        [cbn [length] in Hfuel |- *; lia|].
      rewrite Hr. eexists. split; [reflexivity|].
      cbn [Cloudtrail.requests map]. rewrite request_params_token, Htokens.
      cbn [truthy_opt]. rewrite Htruthy.
      split.
      * change (removelast (page :: page' :: rest))
          with (page :: removelast (page' :: rest)).
        cbn [map]. rewrite Ht. reflexivity.
      * constructor; [apply Hsame|exact Hall].
Qed.

(** X5.  Over a finite sequence of pages, the first request of [read_records]
    carries no token and each later request carries the token of the page
    before it, unchanged; the last page's absent token is sent nowhere.  All
    requests ask for the same number of results from the same start time. *)
Theorem read_records_round_trips_tokens {World : Type}
    (datetime_to_timestamp : Pendulum.DateTime -> Z)
    (send_request : World -> Cloudtrail.Params -> Cloudtrail.Response * World)
    (self : Cloudtrail.Stream) (stream_state : option (gmap string Z))
    (w : World) (pages : list Cloudtrail.Response) (fuel : nat)
    (Hpages : Cloudtrail.serves send_request self (default ∅ stream_state)
                w None pages)
    (Hfuel : (length pages <= fuel)%nat) :
  exists r,
    Cloudtrail.read_records datetime_to_timestamp send_request fuel self
      stream_state w
    = Some r
    /\ map Cloudtrail.p_NextToken (Cloudtrail.requests r)
       = None :: map Cloudtrail.NextToken (removelast pages)
    /\ Forall (fun params =>
                 Cloudtrail.p_MaxResults params = 25
                 /\ Cloudtrail.p_StartTime params
                    = Cloudtrail.p_StartTime
                        (Cloudtrail.request_params self (default ∅ stream_state)
                           None))
         (Cloudtrail.requests r).
Proof.
  unfold Cloudtrail.read_records.
  exact (read_records_loop_tokens datetime_to_timestamp send_request self
           (default ∅ stream_state) pages w None fuel Hpages Hfuel).
Qed.

Lemma read_records_round_trips_tokens_witness :
  Cloudtrail.serves paged_service {| Cloudtrail.start_date := 0 |} ∅
    two_pages None two_pages
  /\ exists r,
       Cloudtrail.read_records (fun date => Z.quot date 1000000) paged_service 2
         {| Cloudtrail.start_date := 0 |} None two_pages
       = Some r
       /\ map Cloudtrail.p_NextToken (Cloudtrail.requests r) = [None; Some "t1"].
Proof.
  assert (Hserves : Cloudtrail.serves paged_service {| Cloudtrail.start_date := 0 |}
                      ∅ two_pages None two_pages).
  { cbn. split; [reflexivity|]. split.
    - exists "t1". split; [reflexivity|discriminate].
    - split; reflexivity. }
  split; [exact Hserves|].
  destruct (read_records_round_trips_tokens (fun date => Z.quot date 1000000)
              paged_service {| Cloudtrail.start_date := 0 |} None two_pages
              two_pages 2
              Hserves ltac:(cbn; lia)) as [r [Hr [Htokens _]]].
  exists r. split; [exact Hr|exact Htokens].
Defined.

(** ** Facebook: successive incremental reads *)

Lemma newest_ge (records : list Entity) (r : Entity) :
  In r records ->
  exists m, newest records = Some m /\ updated_time r <= m.
Proof.
  induction records as [|x rest IH]; intros Hin; [contradiction|].
  cbn [newest]. destruct Hin as [->|Hin].
  - eexists. split; [reflexivity|]. destruct (newest rest); lia.
  - destruct (IH Hin) as [m [Hm Hle]]. rewrite Hm.
    eexists. split; [reflexivity|]. lia.
Qed.

Lemma read_keeps_class deep_merge (self : Stream) getter params :
  class (snd (FBMarketingIncrementalStream.read deep_merge self getter params))
  = class self
  /\ _include_deleted
       (snd (FBMarketingIncrementalStream.read deep_merge self getter params))
     = _include_deleted self.
Proof.
  unfold FBMarketingIncrementalStream.read.
  destruct (FBMarketingIncrementalStream.read_loop self _ None) as [out latest].
  cbn [snd]. unfold FBMarketingIncrementalStream.advance.
  destruct latest; split; reflexivity.
Qed.

Lemma filter_none {A} (f : A -> bool) (l : list A) :
  (forall a, In a l -> f a = false) -> List.filter f l = [].
Proof.
  induction l as [|a l IH]; intros Hall; [reflexivity|].
  cbn [List.filter]. rewrite (Hall a (or_introl eq_refl)).
  apply IH. intros b Hb. apply Hall. right. exact Hb.
Qed.

(** X6.  The watermark that a read pass leaves is set as soon as the pass
    yields a record, and is at or after the cursor of every record the pass
    yielded. *)
Theorem watermark_covers_yielded
    (deep_merge : Params -> Params -> Params) (self : Stream)
    (getter : Params -> list Entity) (params : option Params) :
  let pass := FBMarketingIncrementalStream.read deep_merge self getter params in
  Forall (fun r => state_le (Some (updated_time r)) (_state (snd pass))) (fst pass).
Proof.
  cbn zeta. apply List.Forall_forall. intros r Hin.
  rewrite read_state. destruct (newest_ge _ r Hin) as [m [Hm Hle]].
  rewrite Hm. destruct (_state self); cbn; lia.
Qed.

(** X7.  With the [buffer_days = -1] of the stream classes, a pass that
    follows another and is given no record that the first pass was not given
    yields nothing: no record is yielded twice by successive passes. *)
Theorem second_pass_yields_nothing
    (deep_merge : Params -> Params -> Params) (self : Stream)
    (getter getter' : Params -> list Entity) (params params' : option Params)
    (Hclass : buffer_days (class self) = -1)
    (Hsame : forall r,
       In r (FBMarketingStream.read deep_merge
               (FBMarketingIncrementalStream._build_params deep_merge)
               (snd (FBMarketingIncrementalStream.read deep_merge self getter params))
               getter' params') ->
       In r (FBMarketingStream.read deep_merge
               (FBMarketingIncrementalStream._build_params deep_merge)
               self getter params)) :
  fst (FBMarketingIncrementalStream.read deep_merge
         (snd (FBMarketingIncrementalStream.read deep_merge self getter params))
         getter' params')
  = [].
Proof.
  rewrite read_yields. apply filter_none. intros r Hin. apply Hsame in Hin.
  apply negb_false_iff.
  unfold FBMarketingIncrementalStream.dropped at 1.
  rewrite read_state, (proj1 (read_keeps_class deep_merge self getter params)), Hclass.
  assert (Hzero : forall W, Pendulum.subtract_days W (-1 + 1) = W)
    by (intros W; unfold Pendulum.subtract_days, Pendulum.Interval_days; lia).
  destruct (FBMarketingIncrementalStream.dropped self (updated_time r)) eqn:Hdropped.
  - unfold FBMarketingIncrementalStream.dropped in Hdropped.
    destruct (_state self) as [W|]; [|discriminate].
    rewrite Hclass, Hzero in Hdropped. apply Z.leb_le in Hdropped.
    destruct (newest _) as [m|]; cbn [newer]; rewrite Hzero; apply Z.leb_le; lia.
  - assert (In r (fst (FBMarketingIncrementalStream.read deep_merge self getter params)))
      as Hyielded.
    { rewrite read_yields. apply List.filter_In. split; [exact Hin|].
      rewrite Hdropped. reflexivity. }
    destruct (newest_ge _ r Hyielded) as [m [Hm Hle]]. rewrite Hm.
    destruct (_state self) as [W|]; cbn [newer]; rewrite Hzero; apply Z.leb_le; lia.
Qed.

Lemma second_pass_yields_nothing_witness :
  buffer_days
    (class (set_state (FBMarketingStream.__init__ Ads_class true None)
              (Some (Pendulum.day 1))))
  = -1
  /\ fst (FBMarketingIncrementalStream.read (fun a _ => a)
            (snd (FBMarketingIncrementalStream.read (fun a _ => a)
                    (set_state (FBMarketingStream.__init__ Ads_class true None)
                       (Some (Pendulum.day 1)))
                    (fun _ => [ {| id := "1"; updated_time := Pendulum.day 3 |};
                                {| id := "2"; updated_time := Pendulum.day 7 |} ])
                    None))
            (fun _ => [ {| id := "1"; updated_time := Pendulum.day 3 |};
                        {| id := "2"; updated_time := Pendulum.day 7 |} ])
            None)
     = [].
Proof.
  split; [reflexivity|].
  apply (second_pass_yields_nothing (fun a _ => a)
           (set_state (FBMarketingStream.__init__ Ads_class true None)
              (Some (Pendulum.day 1)))).
  - reflexivity.
  - intros r Hin. exact Hin.
Defined.

(** ** Facebook: how a wait for a job ends *)

Lemma check_late (job : AdsInsights.Job) (runtime : Pendulum.Interval) :
  AdsInsights.MAX_WAIT_TO_FINISH < runtime ->
  AdsInsights.check job runtime <> AdsInsights.Sleep.
Proof.
  intros Hlate. unfold AdsInsights.check.
  destruct (String.eqb _ "Job Completed"); [discriminate|].
  destruct (String.eqb _ "Job Failed"); [discriminate|].
  destruct (String.eqb _ "Job Skipped"); [discriminate|].
  destruct (_ && _); [discriminate|].
  apply Z.ltb_lt in Hlate. rewrite Hlate. discriminate.
Qed.

Lemma wait_loop_bounded (logger : bool) (start_time : Pendulum.DateTime) (k : nat) :
  forall (sleep_seconds elapsed : Z) (polls : list AdsInsights.Poll),
    clock_follows start_time elapsed sleep_seconds polls ->
    1800 < elapsed + total (sleep_values sleep_seconds k) ->
    (k < length polls)%nat ->
    finished (snd (AdsInsights.wait_loop logger start_time sleep_seconds polls))
    = true
    /\ (length (fst (AdsInsights.wait_loop logger start_time sleep_seconds polls))
        <= k)%nat.
Proof.
  induction k as [|k IH]; intros s elapsed polls Hclock Hlate Hlen;
    (destruct polls as [|poll rest]; [cbn in Hlen; lia|]);
    cbn [clock_follows] in Hclock; destruct Hclock as [Hnow Hclock];
    cbn [AdsInsights.wait_loop];
    (destruct logger; cbn [negb]; [|split; [reflexivity|cbn; lia]]).
  - cbn [sleep_values total foldr] in Hlate.
    pose proof (check_late (AdsInsights.polled poll)
                  (AdsInsights.now poll - start_time)) as Hcheck.
    destruct (AdsInsights.check _ _).
    + split; [reflexivity|cbn; lia].
    + split; [reflexivity|cbn; lia].
    + exfalso. apply Hcheck; [|reflexivity].
      revert Hnow. unfold AdsInsights.MAX_WAIT_TO_FINISH, Pendulum.Interval_minutes,
        Pendulum.Interval_seconds, Pendulum.MICROS_PER_SECOND. lia.
  - destruct (AdsInsights.check _ _).
    + split; [reflexivity|cbn; lia].
    + split; [reflexivity|cbn; lia].
    + cbn [sleep_values total foldr] in Hlate.
      destruct (IH (AdsInsights.next_sleep s) (elapsed + s) rest Hclock)
        as [Hfinished Hcount].
      * unfold total. lia.
      * cbn [length] in Hlen. lia.
      * destruct (AdsInsights.wait_loop true start_time _ rest) as [sleeps result].
        cbn [fst snd length] in *. split; [exact Hfinished|lia].
Qed.

(** X9.  When the clock read at each poll is at least the time slept so
    far after the entry, [wait_for_job] ends by its twelfth poll, with the
    job or with an exception, after at most eleven sleeps, whether the global
    name [logger] is bound or not.  As the module is written it ends at the
    first poll, with [NameError] and without a sleep; with [logger] bound the
    sleeps add up to 2046 seconds by the twelfth poll, past the 30 minutes of
    [MAX_WAIT_TO_FINISH]. *)
Theorem wait_for_job_ends_by_twelfth_poll
    (logger : bool) (start_time : Pendulum.DateTime) (polls : list AdsInsights.Poll)
    (Hclock : clock_follows start_time 0 AdsInsights.factor polls)
    (Hpolls : (12 <= length polls)%nat) :
  finished (snd (AdsInsights.wait_for_job logger start_time polls)) = true
  /\ (length (fst (AdsInsights.wait_for_job logger start_time polls)) <= 11)%nat
  /\ AdsInsights.wait_for_job AdsInsights.module_binds_logger start_time polls
     = ([], Raise NameError)
  /\ total (sleep_values 2 11) = 2046.
Proof.
  destruct (wait_loop_bounded logger start_time 11 AdsInsights.factor 0 polls Hclock)
    as [Hfinished Hcount].
  - vm_compute. reflexivity.
  - lia.
  - split; [exact Hfinished|]. split; [exact Hcount|].
    split; [|reflexivity].
    destruct polls as [|poll rest]; [cbn in Hpolls; lia|reflexivity].
Qed.

Lemma wait_for_job_ends_by_twelfth_poll_witness :
  clock_follows 0 0 AdsInsights.factor twelve_polls
  /\ (12 <= length twelve_polls)%nat
  /\ finished (snd (AdsInsights.wait_for_job true 0 twelve_polls)) = true.
Proof.
  assert (Hclock : clock_follows 0 0 AdsInsights.factor twelve_polls).
  { unfold twelve_polls. cbn [clock_follows map].
    repeat (split; [vm_compute; discriminate|]). exact I. }
  split; [exact Hclock|]. split; [cbn; lia|].
  apply (wait_for_job_ends_by_twelfth_poll true 0 twelve_polls Hclock).
  cbn. lia.
Defined.

Lemma check_return (job returned : AdsInsights.Job) (runtime : Pendulum.Interval) :
  AdsInsights.check job runtime = AdsInsights.Return returned ->
  returned = job /\ AdsInsights.async_status job = "Job Completed".
Proof.
  unfold AdsInsights.check.
  destruct (String.eqb_spec (AdsInsights.async_status job) "Job Completed")
    as [Hcompleted|_].
  - intros [= <-]. split; [reflexivity|exact Hcompleted].
  - destruct (String.eqb _ "Job Failed"); [discriminate|].
    destruct (String.eqb _ "Job Skipped"); [discriminate|].
    destruct (_ && _); [discriminate|].
    destruct (_ <? _); discriminate.
Qed.

Lemma wait_loop_returns_completed (logger : bool) (start_time : Pendulum.DateTime)
    (polls : list AdsInsights.Poll) :
  forall (sleep_seconds : Z) (job : AdsInsights.Job),
    snd (AdsInsights.wait_loop logger start_time sleep_seconds polls) = Ok job ->
    logger = true
    /\ AdsInsights.async_status job = "Job Completed"
    /\ AdsInsights.polled
       <$> polls
           !! length (fst (AdsInsights.wait_loop logger start_time sleep_seconds polls))
       = Some job
    /\ Forall (fun poll => AdsInsights.terminal (AdsInsights.polled poll) = false)
         (take (length (fst (AdsInsights.wait_loop logger start_time
                               sleep_seconds polls)))
               polls).
Proof.
  induction polls as [|poll rest IH]; intros s job; cbn [AdsInsights.wait_loop].
  - discriminate.
  - destruct logger; cbn [negb]; [|discriminate].
    destruct (AdsInsights.check _ _) as [returned| |] eqn:Hcheck.
    + cbn [fst snd length]. intros [= ->].
      apply check_return in Hcheck as [-> Hstatus].
      split; [reflexivity|].
      split; [exact Hstatus|]. split; [reflexivity|constructor].
    + discriminate.
    + specialize (IH (AdsInsights.next_sleep s) job).
      destruct (AdsInsights.wait_loop true start_time _ rest) as [sleeps result].
      cbn [fst snd length] in *. intros Hresult.
      destruct (IH Hresult) as [_ [Hstatus [Hpoll Hbefore]]].
      split; [reflexivity|].
      split; [exact Hstatus|]. split; [exact Hpoll|].
      cbn [take]. constructor; [|exact Hbefore].
      destruct (AdsInsights.terminal (AdsInsights.polled poll)) eqn:Hterminal;
        [|reflexivity].
      exfalso. revert Hcheck. unfold AdsInsights.terminal in Hterminal.
      unfold AdsInsights.check.
      destruct (String.eqb _ "Job Completed"); [discriminate|].
      destruct (String.eqb _ "Job Failed"); [discriminate|].
      destruct (String.eqb _ "Job Skipped"); [discriminate|].
      discriminate Hterminal.
Qed.

(** X10.  [wait_for_job] returns a job only when the global name [logger]
    is bound, so never as the module is written, and only when a poll
    reported the job as "Job Completed": the job returned is the one that
    poll gave, every poll before it reported a status other than completed,
    failed or skipped, and the loop slept once for each of them. *)
Theorem wait_for_job_returns_completed_job
    (logger : bool) (start_time : Pendulum.DateTime)
    (polls : list AdsInsights.Poll) (job : AdsInsights.Job)
    (Hreturned : snd (AdsInsights.wait_for_job logger start_time polls) = Ok job) :
  let sleeps := fst (AdsInsights.wait_for_job logger start_time polls) in
  logger = true
  /\ AdsInsights.async_status job = "Job Completed"
  /\ AdsInsights.polled <$> polls !! length sleeps = Some job
  /\ Forall (fun poll => AdsInsights.terminal (AdsInsights.polled poll) = false)
       (take (length sleeps) polls).
Proof.
  exact (wait_loop_returns_completed logger start_time polls AdsInsights.factor job
           Hreturned).
Qed.

Lemma wait_for_job_returns_completed_job_witness :
  snd (AdsInsights.wait_for_job true 0
         [ running_at 0;
           {| AdsInsights.polled :=
                {| AdsInsights.async_status := "Job Completed";
                   AdsInsights.async_percent_completion := 100;
                   AdsInsights.report_run_id := "1" |};
              AdsInsights.now := Pendulum.Interval_seconds 2 |} ])
  = Ok {| AdsInsights.async_status := "Job Completed";
          AdsInsights.async_percent_completion := 100;
          AdsInsights.report_run_id := "1" |}
  /\ AdsInsights.async_status
       {| AdsInsights.async_status := "Job Completed";
          AdsInsights.async_percent_completion := 100;
          AdsInsights.report_run_id := "1" |}
     = "Job Completed".
Proof.
  split; [reflexivity|].
  apply (wait_for_job_returns_completed_job true 0
           [ running_at 0;
             {| AdsInsights.polled :=
                  {| AdsInsights.async_status := "Job Completed";
                     AdsInsights.async_percent_completion := 100;
                     AdsInsights.report_run_id := "1" |};
                AdsInsights.now := Pendulum.Interval_seconds 2 |} ]).
  reflexivity.
Defined.

(** ** Facebook: the windows of [_params] *)

Lemma window_count_step (start now : Pendulum.DateTime) (interval : Pendulum.Interval) :
  0 < interval -> start <= now ->
  window_count start now interval = S (window_count (start + interval) now interval).
Proof.
  intros Hpos Hle. unfold window_count.
  destruct (Z.leb_spec start now) as [_|]; [|lia].
  destruct (Z.leb_spec (start + interval) now) as [Hnext|Hnext].
  - replace (now - start) with ((now - (start + interval)) + 1 * interval) by lia.
    rewrite Z.div_add by lia.
    pose proof (Z.div_pos (now - (start + interval)) interval ltac:(lia) Hpos).
    lia.
  - rewrite Z.div_small by lia. reflexivity.
Qed.

Lemma window_count_reaches_now (start now : Pendulum.DateTime)
    (interval : Pendulum.Interval) :
  0 < interval -> start <= now ->
  start + (Z.of_nat (window_count start now interval) - 1) * interval <= now
  < start + Z.of_nat (window_count start now interval) * interval.
Proof.
  intros Hpos Hle. unfold window_count.
  destruct (Z.leb_spec start now) as [_|]; [|lia].
  pose proof (Z.div_pos (now - start) interval ltac:(lia) Hpos) as Hq.
  pose proof (Z.mul_div_le (now - start) interval Hpos) as Hlow.
  pose proof (Z.mul_succ_div_gt (now - start) interval Hpos) as Hhigh.
  rewrite Z2Nat.id by lia. nia.
Qed.

Lemma _params_loop_windows (self : AdsInsights.Insights) (fields : list string)
    (now : Pendulum.DateTime) :
  0 < AdsInsights._sync_interval self ->
  forall (fuel : nat) (start : Pendulum.DateTime),
    (window_count start now (AdsInsights._sync_interval self) <= fuel)%nat ->
    exists windows,
      AdsInsights._params_loop fuel self fields start now = Ok windows
      /\ length windows = window_count start now (AdsInsights._sync_interval self)
      /\ forall (k : nat) w, windows !! k = Some w ->
           AdsInsights.ip_time_range w
           = (Pendulum.to_date_string
                (start + Z.of_nat k * AdsInsights._sync_interval self),
              Pendulum.to_date_string
                (start + (Z.of_nat k + 1) * AdsInsights._sync_interval self))
           /\ AdsInsights.ip_fields w = fields.
Proof.
  intros Hpos. induction fuel as [|fuel IH]; intros start Hfuel;
    cbn [AdsInsights._params_loop];
    destruct (Z.leb_spec start now) as [Hle|Hgt].
  - rewrite (window_count_step _ _ _ Hpos Hle) in Hfuel. lia.
  - exists []. split; [reflexivity|]. split.
    + unfold window_count. destruct (Z.leb_spec start now); [lia|reflexivity].
    + intros k w Hk. discriminate Hk.
  - rewrite (window_count_step _ _ _ Hpos Hle) in Hfuel |- *.
    destruct (IH (start + AdsInsights._sync_interval self)) as [rest [Hrest [Hlen Hnth]]];
      [lia|].
    rewrite Hrest. eexists. split; [reflexivity|]. split.
    + cbn [length]. rewrite Hlen. reflexivity.
    + intros [|k] w Hk.
      * cbn in Hk. injection Hk as <-. cbn [AdsInsights.ip_time_range AdsInsights.ip_fields].
        split; [|reflexivity]. f_equal; f_equal; lia.
      * cbn in Hk. destruct (Hnth k w Hk) as [Hrange Hfields].
        split; [|exact Hfields]. rewrite Hrange. f_equal; f_equal; lia.
  - exists []. split; [reflexivity|]. split.
    + unfold window_count. destruct (Z.leb_spec start now); [lia|reflexivity].
    + intros k w Hk. discriminate Hk.
Qed.

(** X11.  For a positive window length and the watermark [W], [_params]
    ends and returns the windows that start at [W] minus the class's
    [buffer_days] days: the [k]-th runs from [start + k * length] to
    [start + (k + 1) * length], so each starts where the one before ends.
    When [start] is not after the clock there are
    [(now - start) / length + 1] of them: the last is the one in which the
    clock falls, and its end, past the clock, is not cut back; when [start]
    is after the clock there is none. *)
Theorem params_windows
    (self : AdsInsights.Insights) (fields : list string)
    (W now : Pendulum.DateTime) (fuel : nat)
    (HW : _state (AdsInsights.stream self) = Some W)
    (Hpos : 0 < AdsInsights._sync_interval self)
    (Hfuel : (window_count
                (W - Pendulum.Interval_days
                       (buffer_days (class (AdsInsights.stream self))))%Z
                now (AdsInsights._sync_interval self) <= fuel)%nat) :
  let start :=
    W - Pendulum.Interval_days (buffer_days (class (AdsInsights.stream self))) in
  let interval := AdsInsights._sync_interval self in
  let n := window_count start now interval in
  exists windows,
    AdsInsights._params fuel self fields now = Ok windows
    /\ length windows = n
    /\ (forall (k : nat) w, windows !! k = Some w ->
          AdsInsights.ip_time_range w
          = (Pendulum.to_date_string (start + Z.of_nat k * interval),
             Pendulum.to_date_string (start + (Z.of_nat k + 1) * interval))
          /\ AdsInsights.ip_fields w = AdsInsights.valid_fields fields)
    /\ (start <= now ->
        start + (Z.of_nat n - 1) * interval <= now < start + Z.of_nat n * interval)
    /\ (now < start -> windows = []).
Proof.
  cbn zeta. unfold AdsInsights._params. rewrite HW.
  destruct (_params_loop_windows self (AdsInsights.valid_fields fields) now Hpos
              fuel _ Hfuel) as [windows [Hrun [Hlen Hnth]]].
  exists windows. split; [exact Hrun|]. split; [exact Hlen|].
  split; [exact Hnth|]. split.
  - intros Hle. apply window_count_reaches_now; assumption.
  - intros Hgt. apply length_zero_iff_nil. rewrite Hlen. unfold window_count.
    destruct (Z.leb_spec
                (W - Pendulum.Interval_days
                       (buffer_days (class (AdsInsights.stream self))))
                now); [lia|reflexivity].
Qed.

Lemma params_windows_witness :
  _state (AdsInsights.stream (AdsInsights.__init__ false (Pendulum.day 100) 5 10))
  = Some (Pendulum.day 100)
  /\ 0 < AdsInsights._sync_interval
           (AdsInsights.__init__ false (Pendulum.day 100) 5 10)
  /\ exists windows,
       AdsInsights._params 3 (AdsInsights.__init__ false (Pendulum.day 100) 5 10)
         ["spend"] (Pendulum.day 130)
       = Ok windows
       /\ length windows = 3%nat.
Proof.
  split; [reflexivity|]. split; [reflexivity|].
  destruct (params_windows (AdsInsights.__init__ false (Pendulum.day 100) 5 10)
              ["spend"] (Pendulum.day 100) (Pendulum.day 130) 3
              eq_refl eq_refl ltac:(vm_compute; lia))
    as [windows [Hrun [Hlen _]]].
  exists windows. split; [exact Hrun|exact Hlen].
Defined.




(** X13.  The fields that [_params] asks for are the fields it was given
    without those of [INVALID_INSIGHT_FIELDS], each once: a field is asked
    for if and only if it was given and is not one of the invalid ones. *)
Theorem valid_fields_are_the_given_valid_ones (fields : list string) (f : string) :
  (f ∈ AdsInsights.valid_fields fields
   <-> f ∈ fields /\ f ∉ AdsInsights.INVALID_INSIGHT_FIELDS)
  /\ NoDup (AdsInsights.valid_fields fields).
Proof.
  unfold AdsInsights.valid_fields. split.
  - rewrite list_elem_of_difference, elem_of_remove_dups. reflexivity.
  - apply NoDup_list_difference, NoDup_remove_dups.
Qed.

(** ** Facebook: the slices of a stream *)

(** X14.  [stream_slices] looks at the class only.  For a stream of a class
    without [enable_deleted] ([AdCreatives], [AdsInsights]) it yields nothing
    at all, not even the [None] of its [return]; for a stream of a class with
    [enable_deleted] ([Ads], [AdSets], [Campaigns]) it yields one slice, with
    all 14 labels, also when the stream was built without [include_deleted]
    and its [read] applies no status filter. *)
Theorem stream_slices_follow_the_class
    (self : Stream) (include_deleted : bool)
    (start_date state : option Pendulum.DateTime) :
  let built cls :=
    set_state (FBMarketingStream.__init__ cls include_deleted start_date) state in
  FBMarketingStream.stream_slices self
  = (if enable_deleted (class self)
     then map Some (FBMarketingStream._status_slices self)
     else [])
  /\ Forall (fun slice => slice <> None) (FBMarketingStream.stream_slices self)
  /\ FBMarketingStream.stream_slices (built AdCreatives_class) = []
  /\ FBMarketingStream.stream_slices (built AdsInsights_class) = []
  /\ Forall (fun cls =>
               map (fun slice => FBMarketingStream.labels_of <$> slice)
                   (FBMarketingStream.stream_slices (built cls))
               = [Some FBMarketingStream.filt_values])
       [Ads_class; AdSets_class; Campaigns_class].
Proof.
  cbn zeta. split; [reflexivity|]. split.
  - unfold FBMarketingStream.stream_slices.
    destruct (enable_deleted (class self)); [|constructor].
    apply Forall_map, List.Forall_forall. intros slice _. discriminate.
  - split; [reflexivity|]. split; [reflexivity|].
    repeat constructor.
Qed.

(** ** Facebook: the requests of [AdSets] and [Campaigns] *)

Lemma flat_map_after_map {A B C} (f : A -> B) (g : B -> list C) (l : list A) :
  flat_map (fun a => g (f a)) l = flat_map g (map f l).
Proof.
  induction l as [|a l IH]; [reflexivity|].
  cbn [flat_map map]. rewrite IH. reflexivity.
Qed.

Lemma shallow_merge_no_params (params : Params) :
  shallow_merge params no_params = params.
Proof.
  destruct params as [l f o]. unfold shallow_merge, no_params.
  cbn [limit filtering others]. rewrite map_empty_union. reflexivity.
Qed.

(** X15.  [AdSets.list] (and [Campaigns.list], which is the same code) sends
    one request for each request of [read], and exports the records that
    these requests return and the watermark does not drop.  Once the
    watermark is set, the ["filtering"] entry of every request is the state
    filter alone, one "GREATER_THAN" entry on the cursor: the getter's
    [{**params, **self._state_filter()}] replaces the status filter that
    [read] merged in.  While no watermark is set the requests are those of
    [read], unchanged. *)
Theorem ad_sets_requests_carry_the_state_filter_alone
    {Exported : Type} (deep_merge : Params -> Params -> Params)
    (get_ad_sets : Params -> list Entity) (api_get : Entity -> Exported)
    (self : Stream) :
  fst (AdSets.list deep_merge get_ad_sets api_get self)
  = map api_get
      (List.filter
         (fun r => negb (FBMarketingIncrementalStream.dropped self (updated_time r)))
         (flat_map get_ad_sets (AdSets.api_requests deep_merge self)))
  /\ length (AdSets.api_requests deep_merge self)
     = (if _include_deleted self
        then length (FBMarketingStream._status_slices self)
        else 1%nat)
  /\ match _state self with
     | Some W =>
         Forall (fun params =>
                   filtering params
                   = Some [ {| field := format_prefix (entity_prefix (class self))
                                        +:+ "." +:+ cursor_field (class self);
                               operator := "GREATER_THAN";
                               value := IntTimestamp (Pendulum.int_timestamp W) |} ]
                   /\ FBMarketingStream.labels_of params = [])
           (AdSets.api_requests deep_merge self)
     | None =>
         AdSets.api_requests deep_merge self
         = FBMarketingStream.read_requests deep_merge
             (FBMarketingIncrementalStream._build_params deep_merge) self None
     end.
Proof.
  split; [|split].
  - unfold AdSets.list.
    pose proof (read_yields deep_merge self (AdSets._get_ad_sets get_ad_sets self)
                  None) as Hout.
    destruct (FBMarketingIncrementalStream.read deep_merge self _ None)
      as [out self'].
    cbn [fst] in *. rewrite Hout, read_by_requests.
    unfold AdSets._get_ad_sets, AdSets.api_requests.
    rewrite <- flat_map_after_map. reflexivity.
  - unfold AdSets.api_requests, FBMarketingStream.read_requests.
    rewrite length_map. destruct (_include_deleted self);
      [rewrite length_map|]; reflexivity.
  - unfold AdSets.api_requests, FBMarketingIncrementalStream._state_filter.
    destruct (_state self) as [W|].
    + apply Forall_map, List.Forall_forall. intros params _.
      split; reflexivity.
    + induction (FBMarketingStream.read_requests _ _ _ _) as [|p l IH];
        [reflexivity|].
      cbn [map]. rewrite IH, shallow_merge_no_params. reflexivity.
Qed.

(** ** Facebook: what [Ads.list] exports *)

(** X16.  [Ads.list] sends the requests of [read] as they are, exports with
    [api_get], in order, the records these return that the watermark does
    not drop, one exported record for each, and leaves as watermark the newer
    of the one it found and the newest cursor among the records exported. *)
Theorem ads_list_exports_what_read_yields
    {Exported : Type} (deep_merge : Params -> Params -> Params)
    (get_ads : Params -> list Entity) (api_get : Entity -> Exported)
    (self : Stream) :
  let kept :=
    List.filter
      (fun r => negb (FBMarketingIncrementalStream.dropped self (updated_time r)))
      (flat_map get_ads (Ads.api_requests deep_merge self)) in
  fst (Ads.list deep_merge get_ads api_get self) = map api_get kept
  /\ length (fst (Ads.list deep_merge get_ads api_get self)) = length kept
  /\ _state (snd (Ads.list deep_merge get_ads api_get self))
     = newer (_state self) (newest kept)
  /\ state_le (_state self) (_state (snd (Ads.list deep_merge get_ads api_get self))).
Proof.
  cbn zeta. unfold Ads.list, Ads.api_requests.
  pose proof (read_yields deep_merge self (Ads._get_ads get_ads self) None) as Hout.
  pose proof (read_state deep_merge self (Ads._get_ads get_ads self) None) as Hstate.
  destruct (FBMarketingIncrementalStream.read deep_merge self _ None) as [out self'].
  cbn [fst snd] in *. rewrite read_by_requests in Hout.
  unfold Ads._get_ads in Hout. subst out.
  split; [reflexivity|]. split; [apply length_map|].
  split; [exact Hstate|]. rewrite Hstate. apply state_le_newer.
Qed.
